(** * django-tracking2: visitor ledger, tracking policy and cookie issuer

    A shallow embedding of [tracking/middleware.py] and of the part of
    [tracking/models.py] it touches.  The persistent store is an explicit
    value passed through every operation; exceptions are results. *)

From Equations.Prop Require Import Equations Logic.
From Stdlib Require Import List Bool Arith ZArith QArith Lia String Ascii.
Import ListNotations.
Open Scope string_scope.
Open Scope Z_scope.

(** ** Results of fallible code *)

Inductive exn : Type :=
| ValueError (msg : string)
| AttributeError (attr : string)
| MultipleObjectsReturned
| UnboundLocalError (name : string).

Inductive result (A : Type) : Type :=
| Ok (a : A)
| Raise (e : exn).
Arguments Ok {A} a.
Arguments Raise {A} e.

Definition bind {A B : Type} (r : result A) (k : A -> result B) : result B :=
  match r with
  | Ok a => k a
  | Raise e => Raise e
  end.

Notation "x <- r ;; k" := (bind r (fun x => k))
  (at level 61, r at next level, right associativity).

(** ** Time

    A [datetime] is a count of microseconds since the epoch and a
    [timedelta] a signed count of microseconds, the resolution Python has. *)

Definition datetime := Z.
Definition timedelta := Z.

Definition dt_sub (a b : datetime) : timedelta := a - b.
Definition dt_add_seconds (a : datetime) (s : Z) : datetime := a + s * 1000000.

(** Modelled from the spec: [tracking.utils.total_seconds] is not among the
    sources; the spec has time-on-site as [now - start_time] in seconds, so the
    helper gives the length of the delta in seconds, kept exact as a
    rational. *)
Definition total_seconds (d : timedelta) : Q := Qmake d 1000000.

(** Python's [int] on a number: truncation toward zero. *)
Definition int (q : Q) : Z := Z.quot (Qnum q) (Zpos (Qden q)).

(** ** Data model ([tracking/models.py]) *)

(** The primary key.  [Visitor] declares none, so it is the integer [id]
    that Django adds to the model: the number that the database assigned on
    an insert without one, or the number that the code gave as [pk].  The
    limits that a database backend puts on the size of an integer are not
    part of the sources and are not modelled. *)
Definition Key := Z.

(** A key that the database assigned. *)
Definition KAuto (n : positive) : Key := Zpos n.

Definition Key_eqb (a b : Key) : bool := Z.eqb a b.

(** *** A primary key given as a string

    The [id] field reads a value given for it with [int], as Python 3 does:
    a string is accepted when, white space around it apart, it is a run of
    decimal digits with at most a sign before it, where one underscore may
    stand between two digits; [int] raises [ValueError] on any other.  The
    characters of a string are the code points below 256.  The bound that
    Python 3.11 puts on the number of digits (4300 unless configured) is
    far above what a database stores as an integer and is not modelled. *)

(** [str.isspace] of a character: the ASCII white space, the separators 28
    to 31, NEL and the no-break space. *)
Definition is_space (c : ascii) : bool :=
  let n := nat_of_ascii c in
  (Nat.leb 9 n && Nat.leb n 13) || (Nat.leb 28 n && Nat.leb n 32) ||
  Nat.eqb n 133 || Nat.eqb n 160.

Definition digit (c : ascii) : option Z :=
  let n := nat_of_ascii c in
  if Nat.leb 48 n && Nat.leb n 57 then Some (Z.of_nat (n - 48)) else None.

Fixpoint lstrip_space (s : string) : string :=
  match s with
  | String c r => if is_space c then lstrip_space r else s
  | EmptyString => EmptyString
  end.

Fixpoint all_space (s : string) : bool :=
  match s with
  | String c r => is_space c && all_space r
  | EmptyString => true
  end.

(** The digits of [s] after a digit, [acc] being the value read so far: an
    underscore must be followed by a digit, and only white space may follow
    the last digit. *)
Fixpoint read_digits (acc : Z) (s : string) : option Z :=
  match s with
  | String c r =>
      match digit c with
      | Some d => read_digits (10 * acc + d) r
      | None =>
          if Ascii.eqb c "_"
          then match r with
               | String c' r' =>
                   match digit c' with
                   | Some d => read_digits (10 * acc + d) r'
                   | None => None
                   end
               | EmptyString => None
               end
          else if all_space s then Some acc else None
      end
  | EmptyString => Some acc
  end.

(** A number starts with a digit. *)
Definition read_number (s : string) : option Z :=
  match s with
  | String c r =>
      match digit c with
      | Some d => read_digits d r
      | None => None
      end
  | EmptyString => None
  end.

(** [int(s)] of a string, [None] where it raises [ValueError]. *)
Definition int_of_string (s : string) : option Z :=
  match lstrip_space s with
  | String "+" r => read_number r
  | String "-" r => option_map Z.opp (read_number r)
  | r => read_number r
  end.

(** Identifiers of [User] rows are assigned by the database from 1 up, so
    [not visitor.user_id] holds exactly when the column is NULL. *)
Definition user_pk := positive.

Record Visitor : Type := mkVisitor {
  pk : Key;
  session_key : string;
  cookie_key : string;
  user_id : option user_pk;
  ip_address : string;
  user_agent : option string;
  start_time : datetime;
  expiry_age : option Z;
  expiry_time : option datetime;
  time_on_site : option Z;
  end_time : option datetime
}.

Record Pageview : Type := mkPageview {
  visitor : Key;
  url : string;
  referer : option string;
  query_string : option string;
  method : string;
  view_time : datetime
}.

(** The two tables and the sequence that numbers inserted [Visitor] rows. *)
Record Store : Type := mkStore {
  visitors : list Visitor;
  pageviews : list Pageview;
  next_id : positive
}.

Definition empty_store : Store := mkStore [] [] 1%positive.

(** ** The object manager *)

Module Objects.

(** The key that a lookup or a save makes of the value given as [pk]: the
    field's [int(value)].  The message of the [ValueError] is kept up to
    the value that Python quotes after it. *)
Definition to_pk (value : string) : result Key :=
  match int_of_string value with
  | Some k => Ok k
  | None => Raise (ValueError "invalid literal for int() with base 10")
  end.

(** [Visitor.objects.get(pk=k)], the key read: [Ok None] stands for
    [DoesNotExist], which the only caller catches. *)
Definition get (db : Store) (k : Key) : result (option Visitor) :=
  match filter (fun v => Key_eqb (pk v) k) (visitors db) with
  | [] => Ok None
  | [v] => Ok (Some v)
  | _ :: _ :: _ => Raise MultipleObjectsReturned
  end.

(** [Visitor.objects.filter(session_key=code).exists()] *)
Definition filter_session_key_exists (db : Store) (code : string) : bool :=
  existsb (fun v => String.eqb (session_key v) code) (visitors db).

(** [visitor.save()] of an instance that has a primary key: the rows with
    that key are updated, and the instance is inserted when there is
    none. *)
Definition save (db : Store) (v : Visitor) : Store :=
  if existsb (fun w => Key_eqb (pk w) (pk v)) (visitors db)
  then mkStore (map (fun w => if Key_eqb (pk w) (pk v) then v else w)
                    (visitors db))
               (pageviews db) (next_id db)
  else mkStore (visitors db ++ [v]) (pageviews db) (next_id db).

(** [Visitor.objects.create(...)]: an insert; the database numbers the
    row.  The fields are those of the instance built from the keyword
    arguments, [mk] given the key. *)
Definition create (db : Store) (mk : Key -> Visitor) : Visitor * Store :=
  let obj := mk (KAuto (next_id db)) in
  (obj, mkStore (visitors db ++ [obj]) (pageviews db)
                (Pos.succ (next_id db))).

(** [pageview.save()] of a new instance: an insert. *)
Definition save_pageview (db : Store) (p : Pageview) : Store :=
  mkStore (visitors db) (pageviews db ++ [p]) (next_id db).

End Objects.

(** ** Collaborators: dictionaries, users, sessions, requests, responses *)

(** A Python [dict] with string keys, as [request.META] and
    [request.COOKIES] are read. *)
Definition dict (A : Type) := list (string * A).

Fixpoint dict_get {A : Type} (d : dict A) (k : string) : option A :=
  match d with
  | [] => None
  | (k', a) :: d' => if String.eqb k' k then Some a else dict_get d' k
  end.

Fixpoint dict_set {A : Type} (d : dict A) (k : string) (a : A) : dict A :=
  match d with
  | [] => [(k, a)]
  | (k', a') :: d' =>
      if String.eqb k' k then (k, a) :: d' else (k', a') :: dict_set d' k a
  end.

(** Truth value of a string that may be [None]. *)
Definition truthy (s : option string) : bool :=
  match s with
  | Some (String _ _) => true
  | _ => false
  end.

Definition str_truthy (s : string) : bool := truthy (Some s).

(** [s.lstrip('/')] *)
Fixpoint lstrip_slash (s : string) : string :=
  match s with
  | String c r => if Ascii.eqb c "/" then lstrip_slash r else s
  | EmptyString => EmptyString
  end.

(** [smart_text(s, encoding='latin-1', errors='ignore')] of a text. *)
Definition smart_text (s : string) : string := s.

(** A compiled regular expression, given by its [match] test. *)
Definition Pattern := string -> bool.

Inductive User : Type :=
| AnonymousUser
| Member (id : user_pk).

Definition is_anonymous (u : User) : bool :=
  match u with AnonymousUser => true | Member _ => false end.

Definition is_authenticated (u : User) : bool :=
  match u with AnonymousUser => false | Member _ => true end.

Module Session.
(** [session_key] is empty until the session is saved; [fresh_key] is the
    key the session provider mints then. *)
Record t : Type := mk {
  session_key : string;
  get_expiry_age : Z;
  get_expiry_date : datetime;
  fresh_key : string
}.

Definition save (s : t) : t :=
  mk (fresh_key s) (get_expiry_age s) (get_expiry_date s) (fresh_key s).
End Session.

Module Request.
(** [session] and [user] are attributes that the session and the
    authentication middleware add; [ip] is what [get_ip_address(request)]
    of [tracking.utils], which is not among the sources, returns. *)
Record t : Type := mk {
  session : option Session.t;
  user : option User;
  is_ajax : bool;
  path_info : string;
  path : string;
  method : string;
  META : dict string;
  COOKIES : dict string;
  ip : string
}.

Definition with_session (r : t) (s : Session.t) : t :=
  mk (Some s) (user r) (is_ajax r) (path_info r) (path r) (method r)
     (META r) (COOKIES r) (ip r).
End Request.

Module Response.
Record morsel : Type := mkMorsel {
  value : string;
  max_age : Z;
  expires : datetime;
  domain : option string;
  secure : option bool
}.

Record t : Type := mk {
  status_code : Z;
  cookies : dict morsel
}.

Definition set_cookie (r : t) (key : string) (m : morsel) : t :=
  mk (status_code r) (dict_set (cookies r) key m).
End Response.

(** Successive readings of the clock ([timezone.now()],
    [datetime.utcnow()]). *)
Definition clock := nat -> datetime.

Definition timezone_now (c : clock) : datetime * clock :=
  (c O, fun n => c (S n)).

(** ** Methods of [Visitor] ([tracking/models.py]) *)


(** [session_ended]: "the session has ended due to an explicit logout",
    [bool(self.end_time)]. *)
Definition session_ended (v : Visitor) : bool :=
  match end_time v with
  | Some _ => true
  | None => false
  end.

(** ** Settings ([tracking.settings] and [django.conf.settings]) *)

Record Settings : Type := mkSettings {
  TRACK_AJAX_REQUESTS : bool;
  TRACK_ANONYMOUS_USERS : bool;
  TRACK_IGNORE_STATUS_CODES : list Z;
  TRACK_IGNORE_URLS : list Pattern;
  TRACK_PAGEVIEWS : bool;
  TRACK_QUERY_STRING : bool;
  TRACK_REFERER : bool;
  TRACK_ANONYMOUS_USERS_WITH_COOKIES : bool;
  SESSION_COOKIE_DOMAIN : option string;
  SESSION_COOKIE_SECURE : bool
}.

Definition track_ignore_urls (cfg : Settings) : list Pattern :=
  TRACK_IGNORE_URLS cfg.

Definition cookie_name : string := "ask_for_login_or_newsletter".
Definition user_registered : string := "user_registered".

(** ** Field updates of a [Visitor] instance *)

Definition set_user (v : Visitor) (u : option user_pk) : Visitor :=
  mkVisitor (pk v) (session_key v) (cookie_key v) u (ip_address v)
    (user_agent v) (start_time v) (expiry_age v) (expiry_time v)
    (time_on_site v) (end_time v).

Definition set_expiry (v : Visitor) (age : Z) (date : datetime) : Visitor :=
  mkVisitor (pk v) (session_key v) (cookie_key v) (user_id v) (ip_address v)
    (user_agent v) (start_time v) (Some age) (Some date)
    (time_on_site v) (end_time v).

Definition set_user_agent (v : Visitor) (ua : string) : Visitor :=
  mkVisitor (pk v) (session_key v) (cookie_key v) (user_id v) (ip_address v)
    (Some ua) (start_time v) (expiry_age v) (expiry_time v)
    (time_on_site v) (end_time v).

Definition set_time_on_site (v : Visitor) (t : Z) : Visitor :=
  mkVisitor (pk v) (session_key v) (cookie_key v) (user_id v) (ip_address v)
    (user_agent v) (start_time v) (expiry_age v) (expiry_time v)
    (Some t) (end_time v).

(** ** [VisitorTrackingMiddleware] *)

Module VisitorTrackingMiddleware.

(** [warnings.warn] only writes to the warnings channel; the decision is
    the result. *)
Definition _should_track (cfg : Settings) (user : option User)
    (request : Request.t) (response : Response.t) : bool :=
  match Request.session request with
  | None => false
  | Some _ =>
      if Request.is_ajax request && negb (TRACK_AJAX_REQUESTS cfg)
      then false
      else if existsb (Z.eqb (Response.status_code response))
                      (TRACK_IGNORE_STATUS_CODES cfg)
      then false
      else if match user with None => true | Some _ => false end
              && negb (TRACK_ANONYMOUS_USERS cfg)
      then false
      else
        let path := lstrip_slash (Request.path_info request) in
        if existsb (fun url : Pattern => url path) (track_ignore_urls cfg)
        then false
        else true
  end.

Definition the_session (request : Request.t) : result Session.t :=
  match Request.session request with
  | Some s => Ok s
  | None => Raise (AttributeError "session")
  end.

(** [Visitor(pk=session_key, ip_address=ip_address)], with the key that
    [save()] makes of [session_key]: the other fields take their defaults,
    [start_time] the clock's reading. *)
Definition new_visitor (c : clock) (k : Key) (ip_address : string)
    : Visitor :=
  mkVisitor k "" "" None ip_address None
    (fst (timezone_now c)) None None None None.

(** [visitor.user = user] *)
Definition assign_user (v : Visitor) (u : User) : result Visitor :=
  match u with
  | Member id => Ok (set_user v (Some id))
  | AnonymousUser => Raise (ValueError "Visitor.user must be a User instance")
  end.

(** Returns the saved instance and the store after [visitor.save()].
    [get(pk=session_key)] first reads the session key as a number and
    raises [ValueError] when it is none; only [DoesNotExist] is caught.
    A [datetime] is never false, so the test on [visitor.start_time]
    always passes. *)
Definition _refresh_visitor (db : Store) (c : clock) (user : option User)
    (request : Request.t) (visit_time : datetime)
    : result (Visitor * Store) :=
  s <- the_session request ;;
  let session_key := Session.session_key s in
  k <- Objects.to_pk session_key ;;
  found <- Objects.get db k ;;
  let visitor :=
    match found with
    | Some v => v
    | None => new_visitor c k (Request.ip request)
    end in
  visitor <- match user, user_id visitor with
             | Some u, None => assign_user visitor u
             | _, _ => Ok visitor
             end ;;
  let visitor :=
    set_expiry visitor (Session.get_expiry_age s)
               (Session.get_expiry_date s) in
  let user_agent := dict_get (Request.META request) "HTTP_USER_AGENT" in
  let visitor :=
    match user_agent with
    | Some ua => if str_truthy ua
                 then set_user_agent visitor (smart_text ua)
                 else visitor
    | None => visitor
    end in
  let time_on_site :=
    total_seconds (dt_sub visit_time (start_time visitor)) in
  let visitor := set_time_on_site visitor (int time_on_site) in
  Ok (visitor, Objects.save db visitor).

(** Returns [None] and the store as it was when the request has no cookie,
    else the created instance and the store after the insert and the
    [obj.save()] that follows it. *)
Definition _refresh_cookie_visitor (db : Store) (c : clock)
    (user : option User) (request : Request.t) (visit_time : datetime)
    : result (option Visitor * Store) :=
  let key := cookie_name in
  let cookie_key := dict_get (Request.COOKIES request) key in
  s <- the_session request ;;
  let session_key := Session.session_key s in
  match cookie_key with
  | None => Ok (None, db)
  | Some cookie_key =>
      if negb (str_truthy cookie_key) then Ok (None, db)
      else
        let time_on_site := 1 in
        let expiry_age := Session.get_expiry_age s in
        let expiry_time := Session.get_expiry_date s in
        let user_agent := dict_get (Request.META request) "HTTP_USER_AGENT" in
        let user_agent :=
          match user_agent with
          | Some ua => if str_truthy ua then Some (smart_text ua) else Some ua
          | None => None
          end in
        let ip_address := Request.ip request in
        let (obj, db1) :=
          Objects.create db (fun k =>
            mkVisitor k session_key cookie_key None ip_address user_agent
              (fst (timezone_now c)) (Some expiry_age) (Some expiry_time)
              (Some time_on_site) None) in
        Ok (Some obj, Objects.save db1 obj)
  end.

(** [visitor] is what the refresh returned, [None] included; a
    [Pageview] refuses [None] as its visitor. *)
Definition _add_pageview (cfg : Settings) (db : Store)
    (visitor : option Visitor) (request : Request.t) (view_time : datetime)
    : result Store :=
  let referer :=
    if TRACK_REFERER cfg
    then dict_get (Request.META request) "HTTP_REFERER" else None in
  let query_string :=
    if TRACK_QUERY_STRING cfg
    then dict_get (Request.META request) "QUERY_STRING" else None in
  match visitor with
  | None => Raise (ValueError "Pageview.visitor does not allow null values")
  | Some visitor =>
      let pageview :=
        mkPageview (pk visitor) (Request.path request) referer query_string
          (Request.method request) view_time in
      Ok (Objects.save_pageview db pageview)
  end.

(** [user = getattr(request, 'user', None)], anonymous users set to
    [None]. *)
Definition current_user (request : Request.t) : option User :=
  match Request.user request with
  | Some u => if is_anonymous u then None else Some u
  | None => None
  end.

(** The response and the store afterwards. *)
Definition process_response (cfg : Settings) (db : Store) (c : clock)
    (request : Request.t) (response : Response.t)
    : result (Response.t * Store) :=
  let user := current_user request in
  if negb (_should_track cfg user request response)
  then Ok (response, db)
  else
    s <- the_session request ;;
    let request :=
      if negb (str_truthy (Session.session_key s))
      then Request.with_session request (Session.save s)
      else request in
    let (now, c) := timezone_now c in
    r <- (if TRACK_ANONYMOUS_USERS_WITH_COOKIES cfg
          then _refresh_cookie_visitor db c user request now
          else
            r <- _refresh_visitor db c user request now ;;
            Ok (Some (fst r), snd r)) ;;
    let (visitor, db) := r in
    if TRACK_PAGEVIEWS cfg && negb (TRACK_ANONYMOUS_USERS_WITH_COOKIES cfg)
    then
      db <- _add_pageview cfg db visitor request now ;;
      Ok (response, db)
    else Ok (response, db).

(** The store once the response was processed: as it was when an
    exception was raised, none being raised after a write. *)
Definition store_after (cfg : Settings) (db : Store) (c : clock)
    (request : Request.t) (response : Response.t) : Store :=
  match process_response cfg db c request response with
  | Ok (_, db') => db'
  | Raise _ => db
  end.

End VisitorTrackingMiddleware.

(** ** [SetAndUpdateCookieMiddleware] *)

Module SetAndUpdateCookieMiddleware.

(** Successive values of [str(uuid.uuid4())]: the n-th call returns
    [g n]. *)
Definition uuid_source := nat -> string.

Definition uuid4 (g : uuid_source) : string * uuid_source :=
  (g O, fun n => g (S n)).

Definition MAX_TRIES : nat := 16.

(** The [while not unique] loop of [ucode], with the three locals it
    updates. *)
Equations? ucode_loop (db : Store) (g : uuid_source)
    (loop_num : nat) (unique : bool) (new_code : option string)
    : result string by wf (MAX_TRIES - loop_num)%nat lt :=
  ucode_loop db g loop_num true new_code :=
    match new_code with
    | Some c => Ok c
    | None => Raise (UnboundLocalError "new_code")
    end;
  ucode_loop db g loop_num false new_code
    with inspect (Nat.ltb loop_num MAX_TRIES) => {
    | exist _ true Hlt =>
        let new_code := fst (uuid4 g) in
        ucode_loop db (snd (uuid4 g)) (S loop_num)
          (negb (Objects.filter_session_key_exists db new_code))
          (Some new_code);
    | exist _ false Hge =>
        Raise (ValueError "Couldn't generate a unique code.") }.
Proof.
  apply Nat.ltb_lt in Hlt.
  change (MAX_TRIES - S loop_num < MAX_TRIES - loop_num)%nat. lia.
Qed.

Definition ucode (db : Store) (g : uuid_source) : result string :=
  ucode_loop db g O false None.

Definition the_user (request : Request.t) : result User :=
  match Request.user request with
  | Some u => Ok u
  | None => Raise (AttributeError "user")
  end.

(** [expires] is kept as the instant that [strftime] formats. *)
Definition process_response (cfg : Settings) (db : Store)
    (g : uuid_source) (c : clock)
    (request : Request.t) (response : Response.t) : result Response.t :=
  let max_age := 360 * 24 * 60 * 60 in
  let key := cookie_name in
  let value := dict_get (Request.COOKIES request) key in
  value <- (if negb (truthy value) then ucode db g
            else Ok (match value with Some v => v | None => "" end)) ;;
  u <- the_user request ;;
  let value := if is_authenticated u then user_registered else value in
  if negb (is_authenticated u) && negb (String.eqb value user_registered)
  then
    let expires := dt_add_seconds (fst (timezone_now c)) max_age in
    Ok (Response.set_cookie response key
          (Response.mkMorsel value max_age expires
             (SESSION_COOKIE_DOMAIN cfg)
             (if SESSION_COOKIE_SECURE cfg then Some true else None)))
  else Ok response.

End SetAndUpdateCookieMiddleware.

(** * Definitions for the statements *)

Import VisitorTrackingMiddleware.
Module Issuer := SetAndUpdateCookieMiddleware.

(** ** The token generator *)

(** The existence test the generator runs on a candidate. *)
Definition taken (db : Store) (code : string) : bool :=
  Objects.filter_session_key_exists db code.

Definition generation_error : exn :=
  ValueError "Couldn't generate a unique code.".

(** What the lookup raises on a session key that is no number. *)
Definition key_error : exn :=
  ValueError "invalid literal for int() with base 10".

(** ** Fixtures *)

Definition settings_session : Settings :=
  mkSettings false true [404; 500] [] true true true false None false.

Definition settings_cookie : Settings :=
  mkSettings false true [404; 500] [] true true true true None false.

Definition token_a : string := "3f2b8c1e-5d4a-4e6f-9a7b-0c1d2e3f4a5b".

Definition session_a : Session.t :=
  Session.mk "k9x2m4q7" 1209600 1209600000000 "k9x2m4q7".

(** A session whose key reads as a number. *)
Definition session_n : Session.t :=
  Session.mk "4815162342" 1209600 1209600000000 "4815162342".

(** An anonymous request on [session_n], of a browser that holds no
    cookie. *)
Definition request_numbered : Request.t :=
  Request.mk (Some session_n) (Some AnonymousUser) false "/about" "/about"
    "GET" [("HTTP_USER_AGENT", "Mozilla/5.0")] [] "203.0.113.7".

(** A logged-in user on [session_n]. *)
Definition request_member_n : Request.t :=
  Request.mk (Some session_n) (Some (Member 7%positive)) false "/about"
    "/about" "GET" [("HTTP_USER_AGENT", "Mozilla/5.0")] [] "203.0.113.7".

(** An anonymous request of a browser that holds no cookie. *)
Definition request_plain : Request.t :=
  Request.mk (Some session_a) (Some AnonymousUser) false "/about" "/about"
    "GET" [("HTTP_USER_AGENT", "Mozilla/5.0")] [] "203.0.113.7".

(** The same browser once it holds the token. *)
Definition request_token : Request.t :=
  Request.mk (Some session_a) (Some AnonymousUser) false "/about" "/about"
    "GET" [("HTTP_USER_AGENT", "Mozilla/5.0")] [(cookie_name, token_a)]
    "203.0.113.7".

(** A logged-in user whose browser holds the token. *)
Definition request_member : Request.t :=
  Request.mk (Some session_a) (Some (Member 7%positive)) false "/about"
    "/about" "GET" [("HTTP_USER_AGENT", "Mozilla/5.0")]
    [(cookie_name, token_a)] "203.0.113.7".

Definition response_ok : Response.t := Response.mk 200 [].
Definition response_missing : Response.t := Response.mk 404 [].

(** A clock that reads [t] seconds, whenever it is read. *)
Definition clock_at (t : Z) : clock := fun _ => t * 1000000.

(** ** The bound on token generation *)

(** A store whose [session_key] column holds ["a"] and ["b"], and a source
    that draws ["a"], ["b"], then ["c"] for ever. *)
Definition row_with_session_key (n : positive) (k : string) : Visitor :=
  mkVisitor (KAuto n) k "" None "203.0.113.7" None 0 None None (Some 1) None.

Definition store_ab : Store :=
  mkStore [row_with_session_key 1 "a"; row_with_session_key 2 "b"] [] 3.

Definition draws_abc : Issuer.uuid_source :=
  fun n => match n with O => "a" | 1%nat => "b" | _ => "c" end.

(** ** The store operations *)

(** The store after [Visitor.objects.create] and the [obj.save()] that
    follows it. *)
Definition created (db : Store) (mk : Key -> Visitor) : Store :=
  Objects.save (snd (Objects.create db mk)) (fst (Objects.create db mk)).

(** ** The cookie-mode write path *)

(** The row that a cookie-mode sighting inserts. *)
Definition cookie_row (c : clock) (s : Session.t) (request : Request.t)
    (token : string) (k : Key) : Visitor :=
  mkVisitor k (Session.session_key s) token None (Request.ip request)
    (match dict_get (Request.META request) "HTTP_USER_AGENT" with
     | Some ua => if str_truthy ua then Some (smart_text ua) else Some ua
     | None => None
     end)
    (c 1%nat) (Some (Session.get_expiry_age s))
    (Some (Session.get_expiry_date s)) (Some 1) None.

(** The session as the ledger reads it: saved first when it has no key. *)
Definition keyed (s : Session.t) : Session.t :=
  if negb (str_truthy (Session.session_key s)) then Session.save s else s.

(** The key under which the ledger files a sighting of the session, when
    the session key reads as a number. *)
Definition ledger_key (s : Session.t) : option Key :=
  int_of_string (Session.session_key (keyed s)).

(** ** Sightings without a cookie *)

(** C5 as stated: a tracked cookie-mode sighting without a cookie token is
    recorded all the same. *)
Definition cookieless_sighting_recorded : Prop :=
  forall cfg db c request response,
    TRACK_ANONYMOUS_USERS_WITH_COOKIES cfg = true ->
    _should_track cfg (current_user request) request response = true ->
    dict_get (Request.COOKIES request) cookie_name = None ->
    exists db' v,
      process_response cfg db c request response = Ok (response, db') /\
      In v (visitors db') /\ ~ In v (visitors db).

(** ** The issuer and authenticated users *)

(** C6 as stated: the response of an authenticated user carries the cookie
    with the sentinel value. *)
Definition authenticated_gets_sentinel : Prop :=
  forall cfg db g c request response u,
    Request.user request = Some u ->
    is_authenticated u = true ->
    exists response' m,
      Issuer.process_response cfg db g c request response = Ok response' /\
      dict_get (Response.cookies response') cookie_name = Some m /\
      Response.value m = user_registered.

(** ** The session-mode write path *)

(** [visitor.user = user] when a user is there and the row has none. *)
Definition link (user : option User) (v : Visitor) : Visitor :=
  match user, user_id v with
  | Some (Member id), None => set_user v (Some id)
  | _, _ => v
  end.

(** The instance that [_refresh_visitor] saves, from the one it found or
    built. *)
Definition updated (s : Session.t) (request : Request.t)
    (user : option User) (visit_time : datetime) (v : Visitor) : Visitor :=
  let v1 := set_expiry (link user v) (Session.get_expiry_age s)
              (Session.get_expiry_date s) in
  let v2 :=
    match dict_get (Request.META request) "HTTP_USER_AGENT" with
    | Some ua => if str_truthy ua then set_user_agent v1 (smart_text ua)
                 else v1
    | None => v1
    end in
  set_time_on_site v2
    (int (total_seconds (dt_sub visit_time (start_time v2)))).

(** The row that [_add_pageview] inserts. *)
Definition pageview_of (cfg : Settings) (v : Visitor) (request : Request.t)
    (view_time : datetime) : Pageview :=
  mkPageview (pk v) (Request.path request)
    (if TRACK_REFERER cfg
     then dict_get (Request.META request) "HTTP_REFERER" else None)
    (if TRACK_QUERY_STRING cfg
     then dict_get (Request.META request) "QUERY_STRING" else None)
    (Request.method request) view_time.

(** The instance that a session-mode sighting saves, given what the lookup
    found. *)
Definition sighted (c : clock) (s : Session.t) (k : Key)
    (request : Request.t) (found : option Visitor) : Visitor :=
  updated (keyed s) request (current_user request) (c O)
    (match found with
     | Some v => v
     | None => new_visitor (fun n => c (S n)) k (Request.ip request)
     end).

(** The store that a session-mode sighting leaves, the session key being
    read as [k] and the lookup having returned [found]. *)
Definition session_store (cfg : Settings) (db : Store) (c : clock)
    (s : Session.t) (k : Key) (request : Request.t)
    (found : option Visitor) : Store :=
  let v := sighted c s k request found in
  if TRACK_PAGEVIEWS cfg
  then Objects.save_pageview (Objects.save db v)
         (pageview_of cfg v request (c O))
  else Objects.save db v.


(** ** Time on site of a repeat sighting *)


(** The store after the first sighting of [session_n], at second 10. *)
Definition store_seen_at_10 : Store :=
  store_after settings_session empty_store (clock_at 10) request_numbered
    response_ok.

Definition row_seen_at_10 : Visitor :=
  mkVisitor 4815162342 "" "" None "203.0.113.7" (Some "Mozilla/5.0")
    10000000 (Some 1209600) (Some 1209600000000) (Some 0) None.

(** ** Keys of the rows *)

(** The keys of the rows lie below the sequence of the table. *)
Definition fresh_ids (db : Store) : bool :=
  forallb (fun v => Z.ltb (pk v) (KAuto (next_id db))) (visitors db).

(** What the insert of cookie mode needs: there the rows have fresh keys.
    In session mode the keys come from the session keys and the sequence
    is not used. *)
Definition numbered (cfg : Settings) (db : Store) : Prop :=
  TRACK_ANONYMOUS_USERS_WITH_COOKIES cfg = true -> fresh_ids db = true.

(** ** The user reference is written once *)

(** A member of another account, on the same session. *)
Definition request_other_member : Request.t :=
  Request.mk (Some session_n) (Some (Member 9%positive)) false "/about"
    "/about" "GET" [("HTTP_USER_AGENT", "Mozilla/5.0")] [] "203.0.113.7".

(** The store after the session-mode sighting of member 7, at second 10. *)
Definition store_member_seen : Store :=
  store_after settings_session empty_store (clock_at 10) request_member_n
    response_ok.

Definition row_member_seen : Visitor :=
  mkVisitor 4815162342 "" "" (Some 7%positive) "203.0.113.7"
    (Some "Mozilla/5.0") 10000000 (Some 1209600) (Some 1209600000000)
    (Some 0) None.

(** ** Reachable stores *)

(** The stores that the tracking middleware builds from the empty one. *)
Inductive reachable (cfg : Settings) : Store -> Prop :=
| reachable_empty : reachable cfg empty_store
| reachable_step db c request response :
    reachable cfg db ->
    reachable cfg (store_after cfg db c request response).

(** The three things a sighting does to the Visitor table. *)
Inductive table_step (db db' : Store) : Prop :=
| step_same :
    visitors db' = visitors db -> next_id db' = next_id db ->
    table_step db db'
| step_insert_numbered u :
    visitors db' = (visitors db ++ [u])%list ->
    pk u = KAuto (next_id db) ->
    (forall w, In w (visitors db) -> pk w <> pk u) ->
    next_id db' = Pos.succ (next_id db) ->
    table_step db db'
| step_insert_keyed u :
    visitors db' = (visitors db ++ [u])%list ->
    (forall w, In w (visitors db) -> pk w <> pk u) ->
    next_id db' = next_id db ->
    table_step db db'
| step_update u :
    visitors db' =
      map (fun w => if Key_eqb (pk w) (pk u) then u else w) (visitors db) ->
    next_id db' = next_id db ->
    table_step db db'.

(** ** One row per identity key *)

(** The store after two cookie-mode sightings of the browser that holds
    [token_a]. *)
Definition store_token_seen_twice : Store :=
  store_after settings_cookie
    (store_after settings_cookie empty_store (clock_at 5) request_token
       response_ok)
    (clock_at 40) request_token response_ok.

(** ** Requests that differ in one attribute *)

(** The request without the [user] attribute. *)
Definition without_user (r : Request.t) : Request.t :=
  Request.mk (Request.session r) None (Request.is_ajax r)
    (Request.path_info r) (Request.path r) (Request.method r)
    (Request.META r) (Request.COOKIES r) (Request.ip r).

(** The request for another [path_info]. *)
Definition with_path_info (r : Request.t) (p : string) : Request.t :=
  Request.mk (Request.session r) (Request.user r) (Request.is_ajax r)
    p (Request.path r) (Request.method r)
    (Request.META r) (Request.COOKIES r) (Request.ip r).

(** A run of [n] slashes before [s]. *)
Fixpoint slashes (n : nat) (s : string) : string :=
  match n with
  | O => s
  | S n' => String "/" (slashes n' s)
  end.

Definition starts_with_slash (s : string) : bool :=
  match s with
  | String c _ => Ascii.eqb c "/"
  | EmptyString => false
  end.

(** 360 days, in seconds. *)
Definition cookie_max_age : Z := 31104000.

(** The cookie that the issuer sets for [value] when the clock reads as
    [c]. *)
Definition issued (cfg : Settings) (c : clock) (value : string)
    : Response.morsel :=
  Response.mkMorsel value cookie_max_age
    (dt_add_seconds (c O) cookie_max_age)
    (SESSION_COOKIE_DOMAIN cfg)
    (if SESSION_COOKIE_SECURE cfg then Some true else None).

(** ** Fixtures and tactics for the further properties *)

Ltac by_cases_of_update :=
  unfold updated, link;
  repeat match goal with
         | |- context [match ?x with _ => _ end] => destruct x
         end;
  reflexivity.

(** The browser of [session_n] on another address, with no User-Agent. *)
Definition request_moved : Request.t :=
  Request.mk (Some session_n) (Some AnonymousUser) false "/about" "/about"
    "GET" [] [] "198.51.100.23".

(** A session that has no key yet; saving it mints ["2718281828"]. *)
Definition session_new : Session.t :=
  Session.mk "" 1209600 1209600000000 "2718281828".

Definition request_new_session : Request.t :=
  Request.mk (Some session_new) (Some AnonymousUser) false "/" "/" "GET"
    [("HTTP_USER_AGENT", "Mozilla/5.0")] [] "203.0.113.7".

(** A request with a referer and a query string. *)
Definition request_search : Request.t :=
  Request.mk (Some session_n) (Some AnonymousUser) false "/search" "/search"
    "GET"
    [("HTTP_REFERER", "https://example.org/"); ("QUERY_STRING", "q=tea")]
    [] "203.0.113.7".

Definition settings_no_pageviews : Settings :=
  mkSettings false true [404; 500] [] false true true false None false.

(** The store after the sightings of [session_n] at seconds 10 and 40. *)
Definition store_seen_twice : Store :=
  store_after settings_session store_seen_at_10 (clock_at 40) request_search
    response_ok.

Definition pageview_search : Pageview :=
  mkPageview 4815162342 "/search" (Some "https://example.org/")
    (Some "q=tea") "GET" 40000000.

Definition settings_no_referer : Settings :=
  mkSettings false true [404; 500] [] true false false false None false.

Definition store_no_referer : Store :=
  store_after settings_no_referer empty_store (clock_at 10) request_search
    response_ok.

Definition pageview_bare : Pageview :=
  mkPageview 4815162342 "/search" None None "GET" 10000000.

(** The browser of a user who registered, logged out since. *)
Definition request_registered : Request.t :=
  Request.mk (Some session_a) (Some AnonymousUser) false "/about" "/about"
    "GET" [("HTTP_USER_AGENT", "Mozilla/5.0")]
    [(cookie_name, user_registered)] "203.0.113.7".

(** A response that already carries the session cookie. *)
Definition response_with_session_cookie : Response.t :=
  Response.mk 200
    [("sessionid", Response.mkMorsel "k9x2m4q7" 1209600 1209600000000
                     None None)].

(** * Properties *)

(** ** Keys *)

Lemma Key_eqb_eq a b : Key_eqb a b = true <-> a = b.
Proof. apply Z.eqb_eq. Qed.

Lemma Key_eqb_refl a : Key_eqb a a = true.
Proof. now apply Key_eqb_eq. Qed.

Lemma Key_eqb_neq a b : Key_eqb a b = false <-> a <> b.
Proof.
  split.
  - intros H E. apply Key_eqb_eq in E. congruence.
  - intros H. destruct (Key_eqb a b) eqn:E; [|reflexivity].
    apply Key_eqb_eq in E. contradiction.
Qed.

(** ** The token generator *)

Lemma ucode_loop_done db g n c :
  Issuer.ucode_loop db g n true (Some c) = Ok c.
Proof. now simp ucode_loop. Qed.

Lemma ucode_loop_clause db g n nc
    (r : {y : bool | Nat.ltb n Issuer.MAX_TRIES = y}) :
  Issuer.ucode_loop_unfold_clause_2 db g n r nc =
  if proj1_sig r
  then Issuer.ucode_loop db (snd (Issuer.uuid4 g)) (S n)
         (negb (taken db (g O))) (Some (g O))
  else Raise generation_error.
Proof. destruct r as [[|] e]; reflexivity. Qed.

Lemma ucode_loop_unfold db g n nc :
  Issuer.ucode_loop db g n false nc =
  if Nat.ltb n Issuer.MAX_TRIES
  then Issuer.ucode_loop db (snd (Issuer.uuid4 g)) (S n)
         (negb (taken db (g O))) (Some (g O))
  else Raise generation_error.
Proof.
  rewrite Issuer.ucode_loop_equation_2. now rewrite ucode_loop_clause.
Qed.

(** Running the loop from iteration [n] with [k] tries left, when the
    first [i] candidates are taken and the next one is not. *)
Lemma ucode_loop_first_free db i : forall g n nc,
  (n + i < Issuer.MAX_TRIES)%nat ->
  (forall j, (j < i)%nat -> taken db (g j) = true) ->
  taken db (g i) = false ->
  Issuer.ucode_loop db g n false nc = Ok (g i).
Proof.
  induction i as [|i IH]; intros g n nc Hn Hpre Hfree.
  - rewrite ucode_loop_unfold.
    replace (Nat.ltb n Issuer.MAX_TRIES) with true
      by (symmetry; apply Nat.ltb_lt; lia).
    rewrite Hfree. apply ucode_loop_done.
  - rewrite ucode_loop_unfold.
    replace (Nat.ltb n Issuer.MAX_TRIES) with true
      by (symmetry; apply Nat.ltb_lt; lia).
    rewrite (Hpre O) by lia. simpl negb.
    apply (IH (snd (Issuer.uuid4 g))).
    + lia.
    + intros j Hj. apply (Hpre (S j)). lia.
    + exact Hfree.
Qed.

Lemma ucode_loop_all_taken db k : forall g n nc,
  (n + k = Issuer.MAX_TRIES)%nat ->
  (forall j, (j < k)%nat -> taken db (g j) = true) ->
  Issuer.ucode_loop db g n false nc = Raise generation_error.
Proof.
  induction k as [|k IH]; intros g n nc Hn Hall.
  - rewrite ucode_loop_unfold.
    replace (Nat.ltb n Issuer.MAX_TRIES) with false
      by (symmetry; apply Nat.ltb_ge; lia).
    reflexivity.
  - rewrite ucode_loop_unfold.
    replace (Nat.ltb n Issuer.MAX_TRIES) with true
      by (symmetry; apply Nat.ltb_lt; lia).
    rewrite (Hall O) by lia. simpl negb.
    apply (IH (snd (Issuer.uuid4 g))).
    + lia.
    + intros j Hj. apply (Hall (S j)). lia.
Qed.

(** Among the first [k] candidates, either all are taken or there is a
    first one that is not. *)
Lemma first_free_dec db (g : Issuer.uuid_source) k :
  (forall j, (j < k)%nat -> taken db (g j) = true) \/
  (exists i, (i < k)%nat /\ taken db (g i) = false /\
             forall j, (j < i)%nat -> taken db (g j) = true).
Proof.
  induction k as [|k [IH | (i & Hi & Hf & Hp)]].
  - left. intros j Hj. lia.
  - destruct (taken db (g k)) eqn:E.
    + left. intros j Hj. destruct (Nat.eq_dec j k) as [->|]; [exact E|].
      apply IH. lia.
    + right. exists k. repeat split; [lia | exact E | exact IH].
  - right. exists i. repeat split; [lia | exact Hf | exact Hp].
Qed.

(** ** The policy filter gates every write *)

Lemma untracked_unchanged cfg db c request response :
  _should_track cfg (current_user request) request response = false ->
  process_response cfg db c request response = Ok (response, db).
Proof. intros H. unfold process_response. now rewrite H. Qed.

(** C3: when the Tracking Policy Filter returns false for a request/response
    pair, processing the response returns it with the store as it was: no
    Visitor row and no Pageview row is created or modified. *)
Theorem untracked_response_leaves_store cfg db c request response :
  _should_track cfg (current_user request) request response = false ->
  process_response cfg db c request response = Ok (response, db) /\
  visitors (store_after cfg db c request response) = visitors db /\
  pageviews (store_after cfg db c request response) = pageviews db.
Proof.
  intros H.
  pose proof (untracked_unchanged cfg db c request response H) as E.
  unfold store_after. rewrite E. auto.
Qed.

Lemma untracked_response_leaves_store_witness :
  process_response settings_session empty_store (clock_at 5)
    request_plain response_missing = Ok (response_missing, empty_store) /\
  visitors (store_after settings_session empty_store (clock_at 5)
              request_plain response_missing) = [] /\
  pageviews (store_after settings_session empty_store (clock_at 5)
               request_plain response_missing) = [].
Proof.
  apply (@untracked_response_leaves_store settings_session empty_store
           (clock_at 5) request_plain response_missing).
  reflexivity.
Defined.

(** ** The bound on token generation *)

(** The generator always returns or raises the generation error; which one
    is decided by the first 16 candidates. *)
Lemma ucode_cases db (g : Issuer.uuid_source) :
  (Issuer.ucode db g = Raise generation_error /\
   forall j, (j < 16)%nat -> taken db (g j) = true) \/
  (exists i, (i < 16)%nat /\ Issuer.ucode db g = Ok (g i) /\
             taken db (g i) = false /\
             forall j, (j < i)%nat -> taken db (g j) = true).
Proof.
  destruct (first_free_dec db g 16) as [Hall | (i & Hi & Hf & Hp)].
  - left. split; [|exact Hall].
    unfold Issuer.ucode.
    apply (@ucode_loop_all_taken db 16); [reflexivity|exact Hall].
  - right. exists i. repeat split; try assumption.
    unfold Issuer.ucode. apply ucode_loop_first_free; assumption.
Qed.

(** What the generator does guarantee: the token it returns passed its own
    existence test, which reads the [session_key] column. *)
Lemma ucode_not_taken db (g : Issuer.uuid_source) code :
  Issuer.ucode db g = Ok code -> taken db code = false.
Proof.
  intros H. destruct (ucode_cases db g) as [[E _] | (i & _ & E & Hf & _)];
    rewrite E in H; [discriminate|]. now inversion H; subst.
Qed.

(** C8: the generator raises an error exactly when the 16 candidates it
    draws are all taken, and the error is the generation error; when a
    candidate among the first 16 is free and those before it are taken, that
    candidate is returned. *)
Theorem ucode_raises_iff_16_taken db (g : Issuer.uuid_source) :
  ((exists e, Issuer.ucode db g = Raise e) <->
   (forall j, (j < 16)%nat -> taken db (g j) = true)) /\
  (forall e, Issuer.ucode db g = Raise e -> e = generation_error) /\
  (forall i, (i < 16)%nat -> taken db (g i) = false ->
             (forall j, (j < i)%nat -> taken db (g j) = true) ->
             Issuer.ucode db g = Ok (g i)).
Proof.
  destruct (ucode_cases db g) as [[E Hall] | (i & Hi & E & Hf & Hp)].
  - split; [split|split].
    + intros _. exact Hall.
    + intros _. exists generation_error. exact E.
    + intros e He. rewrite E in He. now inversion He.
    + intros i Hi Hf _. rewrite Hall in Hf by exact Hi. discriminate.
  - split; [split|split].
    + intros [e He]. rewrite E in He. discriminate.
    + intros Hall. rewrite Hall in Hf by exact Hi. discriminate.
    + intros e He. rewrite E in He. discriminate.
    + intros i' Hi' Hf' Hp'.
      destruct (Nat.lt_trichotomy i i') as [Hlt | [-> | Hgt]].
      * rewrite (Hp' i Hlt) in Hf. discriminate.
      * exact E.
      * rewrite (Hp i' Hgt) in Hf'. discriminate.
Qed.

Lemma ucode_raises_iff_16_taken_witness :
  Issuer.ucode store_ab draws_abc = Ok "c".
Proof.
  apply (proj2 (proj2 (ucode_raises_iff_16_taken store_ab draws_abc)) 2%nat).
  - lia.
  - reflexivity.
  - intros [|[|j]] Hj; [reflexivity | reflexivity | lia].
Defined.

(** C7: a store reached by one cookie-mode sighting holds the token in its
    [cookie_key] column, and the generator, drawing that token again, returns
    it: its existence test reads the [session_key] column. *)
Theorem ucode_returns_stored_token :
  let db := store_after settings_cookie empty_store (clock_at 5)
              request_token response_ok in
  map cookie_key (visitors db) = [token_a] /\
  Issuer.ucode db (fun _ => token_a) = Ok token_a.
Proof. split; reflexivity. Qed.

(** ** The store operations *)

Lemma save_pageviews db v : pageviews (Objects.save db v) = pageviews db.
Proof. unfold Objects.save. now destruct (existsb _ _). Qed.

Lemma save_next_id db v : next_id (Objects.save db v) = next_id db.
Proof. unfold Objects.save. now destruct (existsb _ _). Qed.

(** The rows after a save are the old ones, or the saved instance. *)
Lemma save_rows db v w :
  In w (visitors (Objects.save db v)) -> In w (visitors db) \/ w = v.
Proof.
  unfold Objects.save. destruct (existsb _ _); simpl.
  - rewrite in_map_iff. intros (x & <- & Hx).
    destruct (Key_eqb (pk x) (pk v)); auto.
  - rewrite in_app_iff. simpl. intuition.
Qed.

Lemma created_rows db mk w :
  In w (visitors (created db mk)) ->
  In w (visitors db) \/ w = mk (KAuto (next_id db)).
Proof.
  intros H. apply save_rows in H. simpl in H.
  rewrite in_app_iff in H. simpl in H. intuition.
Qed.

Lemma created_pageviews db mk : pageviews (created db mk) = pageviews db.
Proof. unfold created. now rewrite save_pageviews. Qed.

(** ** The cookie-mode write path *)

Lemma tracked_has_session cfg user request response :
  _should_track cfg user request response = true ->
  exists s, Request.session request = Some s.
Proof.
  unfold _should_track. destruct (Request.session request) as [s|].
  - eauto.
  - discriminate.
Qed.

Lemma the_session_some request s :
  Request.session request = Some s -> the_session request = Ok s.
Proof. unfold the_session. now intros ->. Qed.

Lemma the_session_with request s :
  the_session (Request.with_session request s) = Ok s.
Proof. reflexivity. Qed.

Lemma cookie_mode_no_token cfg db c request response :
  TRACK_ANONYMOUS_USERS_WITH_COOKIES cfg = true ->
  _should_track cfg (current_user request) request response = true ->
  truthy (dict_get (Request.COOKIES request) cookie_name) = false ->
  process_response cfg db c request response = Ok (response, db).
Proof.
  intros Hmode Htrack Hcookie.
  destruct (tracked_has_session _ _ _ _ Htrack) as [s Hs].
  unfold process_response. rewrite Htrack, Hmode. cbn [negb].
  rewrite (the_session_some _ _ Hs). cbn [bind timezone_now].
  rewrite andb_false_r.
  unfold _refresh_cookie_visitor.
  destruct (negb (str_truthy (Session.session_key s)));
    [rewrite the_session_with | rewrite (the_session_some _ _ Hs)];
    cbn [Request.COOKIES Request.with_session bind];
    destruct (dict_get (Request.COOKIES request) cookie_name) as [t|];
    try reflexivity;
    unfold str_truthy; rewrite Hcookie; reflexivity.
Qed.

Lemma cookie_mode_token cfg db c request response s token :
  TRACK_ANONYMOUS_USERS_WITH_COOKIES cfg = true ->
  _should_track cfg (current_user request) request response = true ->
  Request.session request = Some s ->
  dict_get (Request.COOKIES request) cookie_name = Some token ->
  str_truthy token = true ->
  process_response cfg db c request response =
  Ok (response, created db (cookie_row c (keyed s) request token)).
Proof.
  intros Hmode Htrack Hs Hcookie Htoken.
  unfold process_response. rewrite Htrack, Hmode. cbn [negb].
  rewrite (the_session_some _ _ Hs). cbn [bind timezone_now].
  rewrite andb_false_r.
  unfold _refresh_cookie_visitor, keyed.
  destruct (negb (str_truthy (Session.session_key s)));
    [rewrite the_session_with | rewrite (the_session_some _ _ Hs)];
    cbn [Request.COOKIES Request.with_session Request.META Request.ip bind];
    rewrite Hcookie, Htoken; reflexivity.
Qed.

(** In cookie mode the response is always returned, and the store afterwards
    is the one before or the one with the inserted row. *)
Lemma cookie_mode_cases cfg db c request response :
  TRACK_ANONYMOUS_USERS_WITH_COOKIES cfg = true ->
  process_response cfg db c request response = Ok (response, db) \/
  exists s token,
    process_response cfg db c request response =
    Ok (response, created db (cookie_row c s request token)).
Proof.
  intros Hmode.
  destruct (_should_track cfg (current_user request) request response) eqn:Ht.
  - destruct (tracked_has_session _ _ _ _ Ht) as [s Hs].
    destruct (dict_get (Request.COOKIES request) cookie_name) as [t|] eqn:Hc.
    + destruct (str_truthy t) eqn:Htt.
      * right. exists (keyed s), t. now apply cookie_mode_token.
      * left. apply cookie_mode_no_token; try assumption.
        rewrite Hc. exact Htt.
    + left. apply cookie_mode_no_token; try assumption. now rewrite Hc.
  - left. now apply untracked_unchanged.
Qed.

Lemma created_has_row db mk :
  (forall k, pk (mk k) = k) ->
  In (mk (KAuto (next_id db))) (visitors (created db mk)).
Proof.
  intros Hpk. unfold created, Objects.save, Objects.create.
  cbn [fst snd visitors pageviews next_id].
  set (obj := mk (KAuto (next_id db))).
  assert (E : existsb (fun w => Key_eqb (pk w) (pk obj))
                      (visitors db ++ [obj]) = true).
  { apply existsb_exists. exists obj. split.
    - apply in_or_app. right. now left.
    - apply Key_eqb_refl. }
  rewrite E. cbn [visitors]. apply in_map_iff. exists obj. split.
  - now rewrite Key_eqb_refl.
  - apply in_or_app. right. now left.
Qed.

(** C9: in cookie mode the response is processed without a Pageview row
    being created, whatever the pageview flag, and every Visitor row that
    the store holds afterwards and did not hold before has [time_on_site]
    1. *)
Theorem cookie_mode_no_pageview_fixed_time cfg db c request response :
  TRACK_ANONYMOUS_USERS_WITH_COOKIES cfg = true ->
  exists db',
    process_response cfg db c request response = Ok (response, db') /\
    pageviews db' = pageviews db /\
    forall v, In v (visitors db') ->
              In v (visitors db) \/ time_on_site v = Some 1.
Proof.
  intros Hmode.
  destruct (cookie_mode_cases cfg db c request response Hmode)
    as [E | (s & token & E)]; rewrite E.
  - exists db. auto.
  - eexists. split; [reflexivity|]. split; [apply created_pageviews|].
    intros v Hv. apply created_rows in Hv. destruct Hv as [Hv | ->]; auto.
Qed.

Lemma cookie_mode_no_pageview_fixed_time_witness :
  exists db',
    process_response settings_cookie empty_store (clock_at 5)
      request_token response_ok = Ok (response_ok, db') /\
    pageviews db' = [] /\
    forall v, In v (visitors db') -> In v [] \/ time_on_site v = Some 1.
Proof.
  apply (@cookie_mode_no_pageview_fixed_time settings_cookie empty_store
           (clock_at 5) request_token response_ok).
  reflexivity.
Defined.

(** C10: in cookie mode every Visitor row that the store holds afterwards
    and did not hold before has no user, whoever sent the request; the write
    path gives the same result for every candidate user. *)
Theorem cookie_mode_rows_have_no_user cfg db c request response :
  TRACK_ANONYMOUS_USERS_WITH_COOKIES cfg = true ->
  (exists db',
     process_response cfg db c request response = Ok (response, db') /\
     forall v, In v (visitors db') ->
               In v (visitors db) \/ user_id v = None) /\
  (forall user user' visit_time,
     _refresh_cookie_visitor db c user request visit_time =
     _refresh_cookie_visitor db c user' request visit_time).
Proof.
  intros Hmode. split; [|reflexivity].
  destruct (cookie_mode_cases cfg db c request response Hmode)
    as [E | (s & token & E)]; rewrite E.
  - exists db. auto.
  - eexists. split; [reflexivity|].
    intros v Hv. apply created_rows in Hv. destruct Hv as [Hv | ->]; auto.
Qed.

Lemma cookie_mode_rows_have_no_user_witness :
  (exists db',
     process_response settings_cookie empty_store (clock_at 5)
       request_member response_ok = Ok (response_ok, db') /\
     forall v, In v (visitors db') -> In v [] \/ user_id v = None) /\
  (forall user user' visit_time,
     _refresh_cookie_visitor empty_store (clock_at 5) user request_member
       visit_time =
     _refresh_cookie_visitor empty_store (clock_at 5) user' request_member
       visit_time).
Proof.
  apply (@cookie_mode_rows_have_no_user settings_cookie empty_store
           (clock_at 5) request_member response_ok).
  reflexivity.
Defined.

(** The member's sighting does insert a row, and the row has no user. *)
Example member_row_has_no_user :
  map user_id
    (visitors (store_after settings_cookie empty_store (clock_at 5)
                 request_member response_ok)) = [None].
Proof. reflexivity. Qed.

(** ** Sightings without a cookie *)

(** C5, counterexample: the tracked request of a browser without a cookie
    leaves the empty store empty. *)
Lemma cookieless_sighting_dropped : ~ cookieless_sighting_recorded.
Proof.
  intros H.
  destruct (H settings_cookie empty_store (clock_at 5) request_plain
              response_ok eq_refl eq_refl eq_refl) as (db' & v & E & Hin & _).
  vm_compute in E. inversion E; subst db'. exact Hin.
Qed.

Lemma issuer_unauthenticated_no_cookie cfg db g c request response u :
  truthy (dict_get (Request.COOKIES request) cookie_name) = false ->
  Request.user request = Some u ->
  is_authenticated u = false ->
  Issuer.process_response cfg db g c request response =
  code <- Issuer.ucode db g ;;
  if String.eqb code user_registered then Ok response
  else Ok (Response.set_cookie response cookie_name
             (Response.mkMorsel code 31104000
                (dt_add_seconds (c O) 31104000)
                (SESSION_COOKIE_DOMAIN cfg)
                (if SESSION_COOKIE_SECURE cfg then Some true else None))).
Proof.
  intros Hc Hu Ha. unfold Issuer.process_response. rewrite Hc. cbn [negb].
  destruct (Issuer.ucode db g) as [code|e]; [|reflexivity]. cbn [bind].
  unfold Issuer.the_user. rewrite Hu. cbn [bind]. rewrite Ha. cbn [negb andb].
  now destruct (String.eqb code user_registered).
Qed.

(** C5, amended: a tracked cookie-mode sighting that carries a token is
    recorded as a new row under that token; one that carries none leaves the
    store as it was, and the token is generated by the Cookie Issuer, which
    sets it on the response of an unauthenticated user. *)
Theorem cookie_mode_sighting cfg db c request response :
  TRACK_ANONYMOUS_USERS_WITH_COOKIES cfg = true ->
  _should_track cfg (current_user request) request response = true ->
  (truthy (dict_get (Request.COOKIES request) cookie_name) = false ->
   process_response cfg db c request response = Ok (response, db)) /\
  (forall token,
     dict_get (Request.COOKIES request) cookie_name = Some token ->
     str_truthy token = true ->
     exists db' v,
       process_response cfg db c request response = Ok (response, db') /\
       In v (visitors db') /\
       pk v = KAuto (next_id db) /\ cookie_key v = token) /\
  (forall g c' u code,
     truthy (dict_get (Request.COOKIES request) cookie_name) = false ->
     Request.user request = Some u ->
     is_authenticated u = false ->
     Issuer.ucode db g = Ok code ->
     String.eqb code user_registered = false ->
     exists response',
       Issuer.process_response cfg db g c' request response = Ok response' /\
       option_map Response.value
         (dict_get (Response.cookies response') cookie_name) = Some code).
Proof.
  intros Hmode Htrack. split; [|split].
  - intros Hc. now apply cookie_mode_no_token.
  - intros token Hc Ht.
    destruct (tracked_has_session _ _ _ _ Htrack) as [s Hs].
    rewrite (cookie_mode_token cfg db c request response s token
               Hmode Htrack Hs Hc Ht).
    eexists. exists (cookie_row c (keyed s) request token (KAuto (next_id db))).
    split; [reflexivity|]. split; [|split; reflexivity].
    now apply created_has_row.
  - intros g c' u code Hc Hu Ha Hg Hne.
    rewrite (issuer_unauthenticated_no_cookie cfg db g c' request response u
               Hc Hu Ha).
    rewrite Hg. cbn [bind]. rewrite Hne. eexists. split; [reflexivity|].
    unfold Response.set_cookie. cbn [Response.cookies].
    assert (D : forall (d : dict Response.morsel) k m,
               dict_get (dict_set d k m) k = Some m).
    { induction d as [|[k' m'] d IH]; intros k m; simpl.
      - now rewrite String.eqb_refl.
      - destruct (String.eqb k' k) eqn:E; simpl.
        + now rewrite String.eqb_refl.
        + rewrite E. apply IH. }
    now rewrite D.
Qed.

Lemma cookie_mode_sighting_witness :
  exists db' v,
    process_response settings_cookie empty_store (clock_at 5)
      request_token response_ok = Ok (response_ok, db') /\
    In v (visitors db') /\ pk v = KAuto 1 /\ cookie_key v = token_a.
Proof.
  apply (proj1 (proj2 (@cookie_mode_sighting settings_cookie empty_store
           (clock_at 5) request_token response_ok eq_refl eq_refl)) token_a);
    reflexivity.
Defined.

(** ** The issuer and authenticated users *)

(** C6, counterexample: the response to a member whose browser holds a token
    is returned without any cookie. *)
Lemma authenticated_cookie_not_set : ~ authenticated_gets_sentinel.
Proof.
  intros H.
  destruct (H settings_cookie empty_store (fun _ => token_a) (clock_at 5)
              request_member response_ok (Member 7%positive) eq_refl eq_refl)
    as (response' & m & E & Hm & _).
  vm_compute in E. inversion E; subst response'. discriminate Hm.
Qed.

(** C6, amended: for an authenticated user the issuer sets no cookie and
    returns the response as it was; the sentinel only replaces the local
    value.  When the request carries no cookie a token is generated first,
    and the generation error, if any, is raised. *)
Theorem issuer_authenticated_sets_no_cookie cfg db g c request response u :
  Request.user request = Some u ->
  is_authenticated u = true ->
  Issuer.process_response cfg db g c request response =
  if truthy (dict_get (Request.COOKIES request) cookie_name)
  then Ok response
  else _ <- Issuer.ucode db g ;; Ok response.
Proof.
  intros Hu Ha. unfold Issuer.process_response.
  destruct (truthy (dict_get (Request.COOKIES request) cookie_name));
    cbn [negb bind].
  - unfold Issuer.the_user. rewrite Hu. cbn [bind]. rewrite Ha. reflexivity.
  - destruct (Issuer.ucode db g) as [code|e]; [|reflexivity]. cbn [bind].
    unfold Issuer.the_user. rewrite Hu. cbn [bind]. rewrite Ha. reflexivity.
Qed.

Lemma issuer_authenticated_sets_no_cookie_witness :
  Issuer.process_response settings_cookie empty_store (fun _ => token_a)
    (clock_at 5) request_member response_ok = Ok response_ok.
Proof.
  apply (issuer_authenticated_sets_no_cookie settings_cookie empty_store
           (fun _ => token_a) (clock_at 5) request_member response_ok
           (Member 7%positive)); reflexivity.
Defined.

(** ** The session-mode write path *)

Lemma link_pk user v : pk (link user v) = pk v.
Proof. unfold link. destruct user as [[|id]|], (user_id v); reflexivity. Qed.

Lemma link_start_time user v : start_time (link user v) = start_time v.
Proof. unfold link. destruct user as [[|id]|], (user_id v); reflexivity. Qed.

Lemma updated_pk s request user t v : pk (updated s request user t v) = pk v.
Proof.
  unfold updated.
  destruct (dict_get (Request.META request) "HTTP_USER_AGENT") as [ua|];
    [destruct (str_truthy ua)|]; cbn; apply link_pk.
Qed.

Lemma updated_start_time s request user t v :
  start_time (updated s request user t v) = start_time v.
Proof.
  unfold updated.
  destruct (dict_get (Request.META request) "HTTP_USER_AGENT") as [ua|];
    [destruct (str_truthy ua)|]; cbn; apply link_start_time.
Qed.

Lemma updated_time_on_site s request user t v :
  time_on_site (updated s request user t v) =
  Some (Z.quot (t - start_time v) 1000000).
Proof.
  unfold updated.
  destruct (dict_get (Request.META request) "HTTP_USER_AGENT") as [ua|];
    [destruct (str_truthy ua)|]; cbn; now rewrite link_start_time.
Qed.

Lemma updated_user_id s request user t v :
  user_id (updated s request user t v) = user_id (link user v).
Proof.
  unfold updated.
  destruct (dict_get (Request.META request) "HTTP_USER_AGENT") as [ua|];
    [destruct (str_truthy ua)|]; reflexivity.
Qed.

Lemma current_user_cases request :
  current_user request = None \/
  exists id, current_user request = Some (Member id).
Proof.
  unfold current_user. destruct (Request.user request) as [[|id]|]; cbn; eauto.
Qed.

(** With the user that [process_response] passes, [_refresh_visitor] saves
    the updated instance, unless the lookup raises. *)
Lemma refresh_visitor_result db c request0 request s visit_time :
  Request.session request = Some s ->
  Request.META request = Request.META request0 ->
  _refresh_visitor db c (current_user request0) request visit_time =
  k <- Objects.to_pk (Session.session_key s) ;;
  found <- Objects.get db k ;;
  let v := updated s request0 (current_user request0) visit_time
             (match found with
              | Some v => v
              | None => new_visitor c k (Request.ip request)
              end) in
  Ok (v, Objects.save db v).
Proof.
  intros Hs Hmeta. unfold _refresh_visitor.
  rewrite (the_session_some _ _ Hs). cbn [bind].
  destruct (Objects.to_pk (Session.session_key s)) as [k|e]; [|reflexivity].
  cbn [bind].
  destruct (Objects.get db k) as [found|e]; [|reflexivity].
  cbn [bind]. rewrite Hmeta. unfold updated, link.
  destruct (current_user_cases request0) as [-> | [id ->]].
  - reflexivity.
  - destruct (user_id _); reflexivity.
Qed.

(** A tracked session-mode response: the session key is read as a number,
    the row looked up, the instance saved and the page view added. *)
Lemma session_mode_response cfg db c request response s :
  TRACK_ANONYMOUS_USERS_WITH_COOKIES cfg = false ->
  _should_track cfg (current_user request) request response = true ->
  Request.session request = Some s ->
  process_response cfg db c request response =
  k <- Objects.to_pk (Session.session_key (keyed s)) ;;
  found <- Objects.get db k ;;
  let v := sighted c s k request found in
  let db1 := Objects.save db v in
  Ok (response,
      if TRACK_PAGEVIEWS cfg
      then Objects.save_pageview db1 (pageview_of cfg v request (c O))
      else db1).
Proof.
  intros Hmode Htrack Hs.
  unfold process_response. rewrite Htrack, Hmode. cbn [negb].
  rewrite (the_session_some _ _ Hs). cbn [bind timezone_now].
  rewrite andb_true_r. unfold sighted, keyed.
  destruct (negb (str_truthy (Session.session_key s))).
  - rewrite (refresh_visitor_result db _ request
               (Request.with_session request (Session.save s))
               (Session.save s) (c O) eq_refl eq_refl).
    destruct (Objects.to_pk (Session.session_key (Session.save s)))
      as [k|e]; [|reflexivity]. cbn [bind].
    destruct (Objects.get db k) as [found|e]; [|reflexivity].
    cbn [bind fst snd]. destruct (TRACK_PAGEVIEWS cfg); reflexivity.
  - rewrite (refresh_visitor_result db _ request request s (c O) Hs eq_refl).
    destruct (Objects.to_pk (Session.session_key s))
      as [k|e]; [|reflexivity]. cbn [bind].
    destruct (Objects.get db k) as [found|e]; [|reflexivity].
    cbn [bind fst snd]. destruct (TRACK_PAGEVIEWS cfg); reflexivity.
Qed.

Lemma to_pk_ledger s :
  Objects.to_pk (Session.session_key (keyed s)) =
  match ledger_key s with
  | Some k => Ok k
  | None => Raise key_error
  end.
Proof. reflexivity. Qed.

(** When the session key reads as the number [k]. *)
Lemma session_mode_tracked cfg db c request response s k :
  TRACK_ANONYMOUS_USERS_WITH_COOKIES cfg = false ->
  _should_track cfg (current_user request) request response = true ->
  Request.session request = Some s ->
  ledger_key s = Some k ->
  process_response cfg db c request response =
  found <- Objects.get db k ;;
  let v := sighted c s k request found in
  let db1 := Objects.save db v in
  Ok (response,
      if TRACK_PAGEVIEWS cfg
      then Objects.save_pageview db1 (pageview_of cfg v request (c O))
      else db1).
Proof.
  intros Hmode Htrack Hs Hk.
  rewrite (session_mode_response cfg db c request response s Hmode Htrack Hs).
  now rewrite to_pk_ledger, Hk.
Qed.

(** When the session key does not read as a number: [ValueError], raised by
    the lookup, before anything is written. *)
Lemma session_mode_key_error cfg db c request response s :
  TRACK_ANONYMOUS_USERS_WITH_COOKIES cfg = false ->
  _should_track cfg (current_user request) request response = true ->
  Request.session request = Some s ->
  ledger_key s = None ->
  process_response cfg db c request response = Raise key_error.
Proof.
  intros Hmode Htrack Hs Hk.
  rewrite (session_mode_response cfg db c request response s Hmode Htrack Hs).
  now rewrite to_pk_ledger, Hk.
Qed.

(** *** Lookups and saves *)

Lemma get_found db k v :
  Objects.get db k = Ok (Some v) ->
  filter (fun w => Key_eqb (pk w) k) (visitors db) = [v].
Proof.
  unfold Objects.get.
  destruct (filter _ (visitors db)) as [|a [|b l]]; intros H;
    inversion H; reflexivity.
Qed.

Lemma get_found_pk db k v : Objects.get db k = Ok (Some v) -> pk v = k.
Proof.
  intros H. apply get_found in H.
  assert (Hin : In v (filter (fun w => Key_eqb (pk w) k) (visitors db)))
    by (rewrite H; now left).
  apply filter_In in Hin. now apply Key_eqb_eq.
Qed.

(** The found row is the only one with its key. *)
Lemma get_found_only db k v w :
  Objects.get db k = Ok (Some v) ->
  In w (visitors db) -> pk w = k -> w = v.
Proof.
  intros H Hin Hpk. apply get_found in H.
  assert (Hw : In w (filter (fun w => Key_eqb (pk w) k) (visitors db))).
  { apply filter_In. split; [exact Hin|]. now apply Key_eqb_eq. }
  rewrite H in Hw. destruct Hw as [<-|[]]. reflexivity.
Qed.

Lemma get_missing db k w :
  Objects.get db k = Ok None -> In w (visitors db) -> pk w <> k.
Proof.
  unfold Objects.get. intros H Hin Hpk.
  assert (Hw : In w (filter (fun w => Key_eqb (pk w) k) (visitors db))).
  { apply filter_In. split; [exact Hin|]. now apply Key_eqb_eq. }
  destruct (filter _ (visitors db)) as [|a [|b l]]; try discriminate.
  exact Hw.
Qed.

Lemma existsb_filter_nil {A} (p : A -> bool) l :
  filter p l = [] -> existsb p l = false.
Proof.
  induction l as [|a l IH]; simpl; [reflexivity|].
  destruct (p a); [discriminate|]. exact IH.
Qed.

Lemma existsb_filter_cons {A} (p : A -> bool) l a r :
  filter p l = a :: r -> existsb p l = true.
Proof.
  intros H. apply existsb_exists. exists a.
  assert (Hin : In a (filter p l)) by (rewrite H; now left).
  now apply filter_In in Hin.
Qed.

(** Saving an instance whose key the lookup found replaces that row. *)
Lemma save_found db k v u :
  Objects.get db k = Ok (Some v) -> pk u = k ->
  visitors (Objects.save db u) =
  map (fun w => if Key_eqb (pk w) k then u else w) (visitors db).
Proof.
  intros H Hu. apply get_found in H. unfold Objects.save. rewrite Hu.
  now rewrite (existsb_filter_cons _ _ _ _ H).
Qed.

(** Saving an instance whose key the lookup did not find appends it. *)
Lemma save_missing db k u :
  Objects.get db k = Ok None -> pk u = k ->
  visitors (Objects.save db u) = (visitors db ++ [u])%list.
Proof.
  intros H Hu. unfold Objects.save. rewrite Hu.
  assert (E : filter (fun w => Key_eqb (pk w) k) (visitors db) = []).
  { unfold Objects.get in H.
    destruct (filter _ (visitors db)) as [|a [|b l]];
      [reflexivity | discriminate | discriminate]. }
  now rewrite (existsb_filter_nil _ _ E).
Qed.

Lemma filter_replace {A} (p : A -> bool) (u : A) l :
  p u = true ->
  filter p (map (fun w => if p w then u else w) l) =
  map (fun _ => u) (filter p l).
Proof.
  intros Hu. induction l as [|a l IH]; simpl; [reflexivity|].
  destruct (p a) eqn:E.
  - rewrite Hu. simpl. now rewrite IH.
  - rewrite E. exact IH.
Qed.

(** After the save, the lookup finds the saved instance. *)
Lemma get_save_found db k v u :
  Objects.get db k = Ok (Some v) -> pk u = k ->
  forall db', visitors db' = visitors (Objects.save db u) ->
  Objects.get db' k = Ok (Some u).
Proof.
  intros H Hu db' E. unfold Objects.get. rewrite E.
  rewrite (save_found db k v u H Hu).
  rewrite (filter_replace (fun w => Key_eqb (pk w) k) u).
  - apply get_found in H. now rewrite H.
  - now apply Key_eqb_eq.
Qed.

(** ** Time on site of a repeat sighting *)

Example store_seen_at_10_rows : visitors store_seen_at_10 = [row_seen_at_10].
Proof. reflexivity. Qed.




(** ** Keys of the rows *)

Lemma fresh_ids_next db v :
  fresh_ids db = true -> In v (visitors db) -> pk v <> KAuto (next_id db).
Proof.
  unfold fresh_ids. rewrite forallb_forall. intros H Hin E.
  specialize (H v Hin). rewrite E in H. apply Pos.ltb_lt in H. lia.
Qed.

(** With fresh keys, the insert and the save that follows it append the
    row. *)
Lemma created_fresh db mk :
  fresh_ids db = true -> (forall k, pk (mk k) = k) ->
  visitors (created db mk) = (visitors db ++ [mk (KAuto (next_id db))])%list.
Proof.
  intros Hf Hpk. unfold created, Objects.save, Objects.create.
  cbn [fst snd visitors pageviews next_id].
  set (obj := mk (KAuto (next_id db))).
  assert (E : existsb (fun w => Key_eqb (pk w) (pk obj))
                      (visitors db ++ [obj]) = true).
  { apply existsb_exists. exists obj. split.
    - apply in_or_app. right. now left.
    - apply Key_eqb_refl. }
  rewrite E. cbn [visitors]. rewrite map_app. cbn [map].
  rewrite Key_eqb_refl. f_equal.
  rewrite <- (map_id (visitors db)) at 2. apply map_ext_in.
  intros w Hw. unfold obj. rewrite Hpk.
  destruct (Key_eqb (pk w) (KAuto (next_id db))) eqn:Ek; [|reflexivity].
  apply Key_eqb_eq in Ek. now apply fresh_ids_next in Ek.
Qed.

Lemma created_next_id db mk : next_id (created db mk) = Pos.succ (next_id db).
Proof. unfold created. now rewrite save_next_id. Qed.

Lemma cookie_row_pk c s request token k :
  pk (cookie_row c s request token k) = k.
Proof. reflexivity. Qed.

(** *** The rows of the store, position by position *)

Lemma nth_error_app_old {A} (l : list A) x i v :
  nth_error l i = Some v -> nth_error (l ++ [x]) i = Some v.
Proof.
  intros H. rewrite nth_error_app1; [exact H|].
  apply nth_error_Some. congruence.
Qed.

(** The store after a tracked session-mode response: as it was when the
    session key is no number or the lookup raises. *)
Lemma session_store_after cfg db c request response s :
  TRACK_ANONYMOUS_USERS_WITH_COOKIES cfg = false ->
  _should_track cfg (current_user request) request response = true ->
  Request.session request = Some s ->
  store_after cfg db c request response =
  match ledger_key s with
  | None => db
  | Some k =>
      match Objects.get db k with
      | Ok found => session_store cfg db c s k request found
      | Raise _ => db
      end
  end.
Proof.
  intros Hmode Htrack Hs. unfold store_after.
  destruct (ledger_key s) as [k|] eqn:Hk.
  - rewrite (session_mode_tracked cfg db c request response s k
               Hmode Htrack Hs Hk).
    now destruct (Objects.get db k).
  - now rewrite (session_mode_key_error cfg db c request response s
                   Hmode Htrack Hs Hk).
Qed.

Lemma session_store_visitors cfg db c s k request found :
  visitors (session_store cfg db c s k request found) =
  visitors (Objects.save db (sighted c s k request found)).
Proof. unfold session_store. now destruct (TRACK_PAGEVIEWS cfg). Qed.

Lemma session_store_next_id cfg db c s k request found :
  next_id (session_store cfg db c s k request found) = next_id db.
Proof.
  unfold session_store.
  destruct (TRACK_PAGEVIEWS cfg); cbn [next_id Objects.save_pageview];
    apply save_next_id.
Qed.

Lemma sighted_pk c s k request found :
  (forall v, found = Some v -> pk v = k) ->
  pk (sighted c s k request found) = k.
Proof.
  intros H. unfold sighted. rewrite updated_pk.
  destruct found as [v|]; [now apply H | reflexivity].
Qed.

Lemma sighted_pk_get db c s k request found :
  Objects.get db k = Ok found -> pk (sighted c s k request found) = k.
Proof.
  intros Hget. apply sighted_pk. intros v ->. exact (get_found_pk _ _ _ Hget).
Qed.

(** What a sighting does to the row at position [i]: it is left as it was,
    unless it is the row of the sighted session, in session mode, which is
    updated. *)
Lemma store_after_row cfg db c request response i v :
  numbered cfg db ->
  nth_error (visitors db) i = Some v ->
  nth_error (visitors (store_after cfg db c request response)) i = Some v \/
  exists s k,
    TRACK_ANONYMOUS_USERS_WITH_COOKIES cfg = false /\
    _should_track cfg (current_user request) request response = true /\
    Request.session request = Some s /\
    ledger_key s = Some k /\
    Objects.get db k = Ok (Some v) /\
    nth_error (visitors (store_after cfg db c request response)) i =
    Some (updated (keyed s) request (current_user request) (c O) v).
Proof.
  intros Hf Hi.
  destruct (_should_track cfg (current_user request) request response)
    eqn:Htrack.
  2:{ left. unfold store_after.
      now rewrite (untracked_unchanged cfg db c request response Htrack). }
  destruct (TRACK_ANONYMOUS_USERS_WITH_COOKIES cfg) eqn:Hmode.
  - left. unfold store_after.
    destruct (cookie_mode_cases cfg db c request response Hmode)
      as [E | (s & token & E)]; rewrite E; [exact Hi|].
    rewrite created_fresh by (exact (Hf Hmode) || apply cookie_row_pk).
    now apply nth_error_app_old.
  - destruct (tracked_has_session _ _ _ _ Htrack) as [s Hs].
    rewrite (session_store_after cfg db c request response s Hmode Htrack Hs).
    destruct (ledger_key s) as [k|] eqn:Hk; [|now left].
    destruct (Objects.get db k) as [[v0|]|e] eqn:Hget; [| |now left].
    + pose proof (sighted_pk_get db c s k request _ Hget) as Hu.
      rewrite session_store_visitors, (save_found db k v0 _ Hget Hu).
      rewrite nth_error_map, Hi. cbn [option_map].
      destruct (Key_eqb (pk v) k) eqn:Ek; [|now left].
      right. exists s, k. apply Key_eqb_eq in Ek.
      assert (v = v0).
      { apply (get_found_only db k v0 v Hget); [|exact Ek].
        eapply nth_error_In; exact Hi. }
      subst v0. repeat split; assumption || reflexivity.
    + left.
      pose proof (sighted_pk_get db c s k request _ Hget) as Hu.
      rewrite session_store_visitors, (save_missing db k _ Hget Hu).
      now apply nth_error_app_old.
Qed.

(** In session mode the row of the sighted session is replaced by its
    update. *)
Lemma session_mode_found_row cfg db c request response s k i v :
  TRACK_ANONYMOUS_USERS_WITH_COOKIES cfg = false ->
  _should_track cfg (current_user request) request response = true ->
  Request.session request = Some s ->
  ledger_key s = Some k ->
  Objects.get db k = Ok (Some v) ->
  nth_error (visitors db) i = Some v ->
  nth_error (visitors (store_after cfg db c request response)) i =
  Some (updated (keyed s) request (current_user request) (c O) v).
Proof.
  intros Hmode Htrack Hs Hk Hget Hi.
  rewrite (session_store_after cfg db c request response s Hmode Htrack Hs).
  rewrite Hk, Hget.
  pose proof (sighted_pk_get db c s k request _ Hget) as Hu.
  rewrite session_store_visitors, (save_found db k v _ Hget Hu).
  rewrite nth_error_map, Hi. cbn [option_map].
  rewrite <- (get_found_pk _ _ _ Hget), Key_eqb_refl. reflexivity.
Qed.

Lemma link_user_id_set user v u :
  user_id v = Some u -> user_id (link user v) = Some u.
Proof.
  intros H. unfold link. rewrite H. now destruct user as [[|id]|].
Qed.

Lemma link_user_id_unset user v :
  user_id v = None ->
  user_id (link user v) =
  match user with Some (Member id) => Some id | _ => None end.
Proof.
  intros H. unfold link. rewrite H. now destruct user as [[|id]|].
Qed.

(** ** The user reference is written once *)

(** C4: processing a response leaves every row at its position with its key;
    a row whose user is set keeps that user, whoever the current user is; a
    row without a user gets one only when the request carries an
    authenticated user, and does get it at the session-mode sighting of its
    session that carries one. *)
Theorem user_reference_write_once cfg db c request response i v :
  numbered cfg db ->
  nth_error (visitors db) i = Some v ->
  exists v',
    nth_error (visitors (store_after cfg db c request response)) i = Some v' /\
    pk v' = pk v /\
    (forall u, user_id v = Some u -> user_id v' = Some u) /\
    (user_id v = None ->
     user_id v' = None \/
     exists id, current_user request = Some (Member id) /\
                user_id v' = Some id) /\
    (forall s k id,
       TRACK_ANONYMOUS_USERS_WITH_COOKIES cfg = false ->
       _should_track cfg (current_user request) request response = true ->
       Request.session request = Some s ->
       ledger_key s = Some k ->
       Objects.get db k = Ok (Some v) ->
       current_user request = Some (Member id) ->
       user_id v = None ->
       user_id v' = Some id).
Proof.
  intros Hf Hi.
  destruct (store_after_row cfg db c request response i v Hf Hi)
    as [E | (s & k & Hmode & Htrack & Hs & Hk & Hget & E)].
  - exists v. split; [exact E|]. split; [reflexivity|].
    split; [auto|]. split; [auto|].
    intros s k id Hmode Htrack Hs Hk Hget Hu Hnone.
    pose proof (session_mode_found_row cfg db c request response s k i v
                  Hmode Htrack Hs Hk Hget Hi) as E'.
    rewrite E in E'.
    assert (Ev : v = updated (keyed s) request (current_user request) (c O) v)
      by congruence.
    rewrite Ev, updated_user_id, (link_user_id_unset _ _ Hnone), Hu.
    reflexivity.
  - eexists. split; [exact E|]. split; [apply updated_pk|].
    rewrite updated_user_id. split; [|split].
    + intros u Hu. now apply link_user_id_set.
    + intros Hnone. rewrite (link_user_id_unset _ _ Hnone).
      destruct (current_user_cases request) as [-> | [id ->]]; eauto.
    + intros s' k' id _ _ _ _ _ Hu Hnone.
      now rewrite (link_user_id_unset _ _ Hnone), Hu.
Qed.

Lemma user_reference_write_once_witness :
  exists v',
    nth_error (visitors (store_after settings_session store_member_seen
                           (clock_at 40) request_other_member response_ok))
              O = Some v' /\
    pk v' = 4815162342 /\ user_id v' = Some 7%positive.
Proof.
  destruct (user_reference_write_once settings_session store_member_seen
              (clock_at 40) request_other_member response_ok O
              row_member_seen)
    as (v' & H1 & H2 & H3 & _).
  - intros Hmode. discriminate Hmode.
  - reflexivity.
  - exists v'. split; [exact H1|]. split; [exact H2|]. now apply H3.
Defined.

(** ** Reachable stores *)

Lemma store_after_step cfg db c request response :
  numbered cfg db ->
  table_step db (store_after cfg db c request response).
Proof.
  intros Hf.
  destruct (_should_track cfg (current_user request) request response)
    eqn:Htrack.
  2:{ unfold store_after.
      rewrite (untracked_unchanged cfg db c request response Htrack).
      now apply step_same. }
  destruct (TRACK_ANONYMOUS_USERS_WITH_COOKIES cfg) eqn:Hmode.
  - unfold store_after.
    destruct (cookie_mode_cases cfg db c request response Hmode)
      as [E | (s & token & E)]; rewrite E; [now apply step_same|].
    eapply step_insert_numbered.
    + apply created_fresh; [exact (Hf Hmode) | apply cookie_row_pk].
    + reflexivity.
    + intros w Hw. exact (fresh_ids_next db w (Hf Hmode) Hw).
    + apply created_next_id.
  - destruct (tracked_has_session _ _ _ _ Htrack) as [s Hs].
    rewrite (session_store_after cfg db c request response s Hmode Htrack Hs).
    destruct (ledger_key s) as [k|] eqn:Hk; [|now apply step_same].
    destruct (Objects.get db k) as [[v0|]|e] eqn:Hget;
      [| |now apply step_same].
    + pose proof (sighted_pk_get db c s k request _ Hget) as Hu.
      apply step_update with (u := sighted c s k request (Some v0)).
      * rewrite session_store_visitors, Hu.
        exact (save_found db k v0 _ Hget Hu).
      * apply session_store_next_id.
    + pose proof (sighted_pk_get db c s k request _ Hget) as Hu.
      apply step_insert_keyed with (u := sighted c s k request None).
      * rewrite session_store_visitors.
        exact (save_missing db k _ Hget Hu).
      * rewrite Hu. intros w Hw. exact (get_missing db k w Hget Hw).
      * apply session_store_next_id.
Qed.

Lemma map_pk_update u l :
  map pk (map (fun w => if Key_eqb (pk w) (pk u) then u else w) l) =
  map pk l.
Proof.
  rewrite map_map. apply map_ext. intros w.
  destruct (Key_eqb (pk w) (pk u)) eqn:E; [|reflexivity].
  apply Key_eqb_eq in E. congruence.
Qed.

(** In cookie mode the keys stay below the sequence. *)
Lemma store_after_numbered cfg db c request response :
  numbered cfg db -> numbered cfg (store_after cfg db c request response).
Proof.
  intros Hf Hmode. specialize (Hf Hmode). unfold store_after.
  destruct (cookie_mode_cases cfg db c request response Hmode)
    as [E | (s & token & E)]; rewrite E; [exact Hf|].
  unfold fresh_ids in *. rewrite created_next_id.
  rewrite created_fresh by (exact Hf || apply cookie_row_pk).
  rewrite forallb_forall in *. intros w Hw.
  apply in_app_or in Hw. destruct Hw as [Hw | [<- | []]].
  - specialize (Hf w Hw). apply Z.ltb_lt in Hf. apply Z.ltb_lt.
    unfold KAuto in *. lia.
  - cbn [cookie_row pk]. apply Z.ltb_lt. unfold KAuto. lia.
Qed.

Lemma NoDup_snoc {A} (l : list A) a :
  NoDup l -> ~ In a l -> NoDup (l ++ [a]).
Proof.
  induction 1 as [|x l Hx Hl IH]; cbn [app]; intros Ha.
  - constructor; [easy | constructor].
  - constructor.
    + intros Hin. apply in_app_or in Hin. destruct Hin as [Hin | [-> | []]].
      * contradiction.
      * apply Ha. now left.
    + apply IH. intros Hin. apply Ha. now right.
Qed.

Lemma table_step_unique db db' :
  table_step db db' ->
  NoDup (map pk (visitors db)) -> NoDup (map pk (visitors db')).
Proof.
  intros [Hv Hn | u Hv Hu Hk Hn | u Hv Hk Hn | u Hv Hn] Hnd; rewrite Hv.
  - exact Hnd.
  - rewrite map_app. cbn [map]. apply NoDup_snoc; [exact Hnd|].
    rewrite in_map_iff. intros (w & Ew & Hw). exact (Hk w Hw Ew).
  - rewrite map_app. cbn [map]. apply NoDup_snoc; [exact Hnd|].
    rewrite in_map_iff. intros (w & Ew & Hw). exact (Hk w Hw Ew).
  - now rewrite map_pk_update.
Qed.

(** In every reachable store no two rows have the same primary key, and in
    cookie mode the keys lie below the sequence. *)
Lemma reachable_keys cfg db :
  reachable cfg db ->
  numbered cfg db /\ NoDup (map pk (visitors db)).
Proof.
  induction 1 as [|db c request response _ [Hf Hnd]].
  - split; [intros _; reflexivity | constructor].
  - pose proof (store_after_step cfg db c request response Hf) as Hs.
    split.
    + now apply store_after_numbered.
    + exact (table_step_unique _ _ Hs Hnd).
Qed.

(** ** One row per identity key *)

(** In session mode the identity key is the primary key, and a reachable
    store holds at most one row for it: a sighting of a session that has a
    row updates that row. *)
Lemma session_rows_unique cfg db v w :
  reachable cfg db ->
  In v (visitors db) -> In w (visitors db) -> pk v = pk w -> v = w.
Proof.
  intros Hr Hv Hw E. destruct (reachable_keys cfg db Hr) as [_ Hnd].
  destruct (In_nth_error _ _ Hv) as [i Hi].
  destruct (In_nth_error _ _ Hw) as [j Hj].
  assert (i = j).
  { apply (proj1 (NoDup_nth_error (map pk (visitors db))) Hnd).
    - apply nth_error_Some. rewrite nth_error_map, Hi. discriminate.
    - rewrite !nth_error_map, Hi, Hj. cbn [option_map]. now rewrite E. }
  subst j. congruence.
Qed.

(** A session-mode sighting of a session that has a row inserts none. *)
Lemma session_repeat_inserts_no_row cfg db c request response s k v :
  TRACK_ANONYMOUS_USERS_WITH_COOKIES cfg = false ->
  _should_track cfg (current_user request) request response = true ->
  Request.session request = Some s ->
  ledger_key s = Some k ->
  Objects.get db k = Ok (Some v) ->
  map pk (visitors (store_after cfg db c request response)) =
  map pk (visitors db).
Proof.
  intros Hmode Htrack Hs Hk Hget.
  rewrite (session_store_after cfg db c request response s Hmode Htrack Hs).
  rewrite Hk, Hget.
  pose proof (sighted_pk_get db c s k request _ Hget) as Hu.
  rewrite session_store_visitors, (save_found db k v _ Hget Hu).
  set (u := sighted c s k request (Some v)) in *.
  rewrite <- Hu. apply map_pk_update.
Qed.

(** C1: in cookie mode the second sighting of a token inserts a second row:
    the reachable store then holds two rows with the same cookie key. *)
Theorem cookie_mode_second_row_per_token :
  reachable settings_cookie store_token_seen_twice /\
  map cookie_key (visitors store_token_seen_twice) = [token_a; token_a] /\
  map pk (visitors store_token_seen_twice) = [KAuto 1; KAuto 2].
Proof.
  split; [|split; reflexivity].
  unfold store_token_seen_twice. do 2 apply reachable_step.
  apply reachable_empty.
Qed.

(** * Further properties of the code *)

(** ** The policy filter *)

(** X1: the filter refuses a pair exactly for one of its five reasons: no
    session, an excluded AJAX request, an ignored status code, an anonymous
    user when those are not tracked, or an ignore pattern that matches the
    path without its leading slashes. *)
Theorem should_track_false_iff cfg user request response :
  _should_track cfg user request response = false <->
  Request.session request = None \/
  (Request.is_ajax request = true /\ TRACK_AJAX_REQUESTS cfg = false) \/
  In (Response.status_code response) (TRACK_IGNORE_STATUS_CODES cfg) \/
  (user = None /\ TRACK_ANONYMOUS_USERS cfg = false) \/
  (exists url, In url (TRACK_IGNORE_URLS cfg) /\
               url (lstrip_slash (Request.path_info request)) = true).
Proof.
  unfold _should_track, track_ignore_urls.
  destruct (Request.session request) as [s|]; [|tauto].
  set (ajax := Request.is_ajax request && negb (TRACK_AJAX_REQUESTS cfg)).
  set (code := existsb (Z.eqb (Response.status_code response))
                 (TRACK_IGNORE_STATUS_CODES cfg)).
  set (anon := match user with None => true | Some _ => false end
               && negb (TRACK_ANONYMOUS_USERS cfg)).
  set (path := existsb (fun url : Pattern =>
                          url (lstrip_slash (Request.path_info request)))
                 (TRACK_IGNORE_URLS cfg)).
  assert (Hajax : ajax = true <->
                  Request.is_ajax request = true /\
                  TRACK_AJAX_REQUESTS cfg = false).
  { unfold ajax. now rewrite andb_true_iff, negb_true_iff. }
  assert (Hcode : code = true <->
                  In (Response.status_code response)
                     (TRACK_IGNORE_STATUS_CODES cfg)).
  { unfold code. rewrite existsb_exists. split.
    - intros (x & Hx & E). apply Z.eqb_eq in E. now subst x.
    - intros Hin. eexists. split; [exact Hin | apply Z.eqb_refl]. }
  assert (Hanon : anon = true <->
                  user = None /\ TRACK_ANONYMOUS_USERS cfg = false).
  { unfold anon. rewrite andb_true_iff, negb_true_iff.
    destruct user; intuition discriminate. }
  assert (Hpath : path = true <->
                  exists url, In url (TRACK_IGNORE_URLS cfg) /\
                    url (lstrip_slash (Request.path_info request)) = true).
  { unfold path. apply existsb_exists. }
  rewrite <- Hajax, <- Hcode, <- Hanon, <- Hpath.
  destruct ajax, code, anon, path; intuition discriminate.
Qed.

Lemma lstrip_slash_slashes n s : lstrip_slash (slashes n s) = lstrip_slash s.
Proof. induction n as [|n IH]; [reflexivity|]. cbn. exact IH. Qed.

Lemma lstrip_slash_no_slash s : starts_with_slash (lstrip_slash s) = false.
Proof.
  induction s as [|a s IH]; [reflexivity|].
  cbn [lstrip_slash]. destruct (Ascii.eqb a "/") eqn:E; [exact IH|].
  cbn. exact E.
Qed.

(** X2: leading slashes of the path do not count: the filter decides the
    same with any number of them before the path, and the path it shows to
    the ignore patterns never starts with a slash. *)
Theorem should_track_leading_slashes cfg user request response n :
  _should_track cfg user
    (with_path_info request (slashes n (Request.path_info request)))
    response =
  _should_track cfg user request response /\
  starts_with_slash (lstrip_slash (Request.path_info request)) = false.
Proof.
  split; [|apply lstrip_slash_no_slash].
  unfold _should_track, with_path_info.
  cbn [Request.session Request.is_ajax Request.path_info].
  now rewrite lstrip_slash_slashes.
Qed.

(** ** The current user *)

(** X3: an anonymous user is handled as a request without a user: both leave
    the same response and the same store. *)
Theorem anonymous_user_as_absent cfg db c request response :
  Request.user request = Some AnonymousUser ->
  process_response cfg db c request response =
  process_response cfg db c (without_user request) response.
Proof.
  destruct request as [ses usr ajax pinfo pth meth meta cookies ip].
  cbn [Request.user]. intros ->.
  unfold process_response, without_user, current_user, _should_track.
  cbn [Request.user Request.session Request.is_ajax Request.path_info
       Request.path Request.method Request.META Request.COOKIES Request.ip
       is_anonymous].
  destruct ses as [s|]; [|reflexivity].
  destruct (negb _); [reflexivity|].
  unfold the_session. cbn [Request.session bind].
  destruct (negb (str_truthy (Session.session_key s)));
    destruct (TRACK_ANONYMOUS_USERS_WITH_COOKIES cfg); reflexivity.
Qed.

Lemma anonymous_user_as_absent_witness :
  process_response settings_session empty_store (clock_at 5) request_numbered
    response_ok =
  process_response settings_session empty_store (clock_at 5)
    (without_user request_numbered) response_ok.
Proof.
  apply (anonymous_user_as_absent settings_session empty_store (clock_at 5)
           request_numbered response_ok).
  reflexivity.
Defined.

(** ** Lookups in a table with unique keys *)




Lemma visitors_with_pageview (b : bool) db p :
  visitors (if b then Objects.save_pageview db p else db) = visitors db.
Proof. now destruct b. Qed.

(** After the save the lookup finds the saved instance, whether the key was
    there or not. *)
Lemma get_after_save db k found u :
  Objects.get db k = Ok found -> pk u = k ->
  Objects.get (Objects.save db u) k = Ok (Some u).
Proof.
  intros Hget Hu. destruct found as [v|].
  - now apply (get_save_found db k v u Hget Hu).
  - unfold Objects.get. rewrite (save_missing db k u Hget Hu).
    rewrite filter_app. cbn [filter]. rewrite Hu, Key_eqb_refl.
    unfold Objects.get in Hget.
    destruct (filter (fun v => Key_eqb (pk v) k) (visitors db))
      as [|a [|b r]]; [reflexivity | discriminate | discriminate].
Qed.

(** ** Fields of the saved instance *)

Lemma updated_ip_address s request user t v :
  ip_address (updated s request user t v) = ip_address v.
Proof. by_cases_of_update. Qed.

Lemma updated_end_time s request user t v :
  end_time (updated s request user t v) = end_time v.
Proof. by_cases_of_update. Qed.

Lemma updated_session_key s request user t v :
  session_key (updated s request user t v) = session_key v.
Proof. by_cases_of_update. Qed.

Lemma updated_cookie_key s request user t v :
  cookie_key (updated s request user t v) = cookie_key v.
Proof. by_cases_of_update. Qed.

Lemma updated_expiry s request user t v :
  expiry_age (updated s request user t v) = Some (Session.get_expiry_age s) /\
  expiry_time (updated s request user t v) = Some (Session.get_expiry_date s).
Proof. split; by_cases_of_update. Qed.

Lemma updated_user_agent s request user t v :
  user_agent (updated s request user t v) =
  match dict_get (Request.META request) "HTTP_USER_AGENT" with
  | Some ua => if str_truthy ua then Some ua else user_agent v
  | None => user_agent v
  end.
Proof.
  unfold updated, link, smart_text.
  destruct (dict_get (Request.META request) "HTTP_USER_AGENT") as [ua|];
    [destruct (str_truthy ua)|];
    destruct user as [[|id]|]; destruct (user_id v); reflexivity.
Qed.

Lemma keyed_expiry s :
  Session.get_expiry_age (keyed s) = Session.get_expiry_age s /\
  Session.get_expiry_date (keyed s) = Session.get_expiry_date s.
Proof. unfold keyed. now destruct (negb _). Qed.

(** ** Session-mode sightings *)






(** X6: a repeat session-mode sighting of a session whose key reads as the
    number [k] refreshes the expiry of the row with that primary key from
    the session, and takes the request's User-Agent when it has a non-empty
    one, keeping the stored one otherwise; the address of the first sighting
    stays, whatever address the request comes from. *)
Theorem repeat_sighting_refresh cfg db c request response s k v :
  TRACK_ANONYMOUS_USERS_WITH_COOKIES cfg = false ->
  _should_track cfg (current_user request) request response = true ->
  Request.session request = Some s ->
  ledger_key s = Some k ->
  Objects.get db k = Ok (Some v) ->
  exists db' v',
    process_response cfg db c request response = Ok (response, db') /\
    Objects.get db' k = Ok (Some v') /\
    expiry_age v' = Some (Session.get_expiry_age s) /\
    expiry_time v' = Some (Session.get_expiry_date s) /\
    user_agent v' =
      match dict_get (Request.META request) "HTTP_USER_AGENT" with
      | Some ua => if str_truthy ua then Some ua else user_agent v
      | None => user_agent v
      end /\
    ip_address v' = ip_address v.
Proof.
  intros Hmode Htrack Hs Hk Hget.
  rewrite (session_mode_tracked cfg db c request response s k
             Hmode Htrack Hs Hk).
  rewrite Hget. cbn [bind]. unfold sighted.
  set (u := updated (keyed s) request (current_user request) (c O) v).
  assert (Hu : pk u = k).
  { unfold u. rewrite updated_pk. exact (get_found_pk _ _ _ Hget). }
  eexists. exists u. split; [reflexivity|]. split.
  { apply (get_save_found db _ v u Hget Hu). apply visitors_with_pageview. }
  destruct (updated_expiry (keyed s) request (current_user request) (c O) v)
    as [Ha Ht].
  destruct (keyed_expiry s) as [Ka Kt].
  unfold u. rewrite Ha, Ht, Ka, Kt, updated_user_agent, updated_ip_address.
  auto.
Qed.

Lemma repeat_sighting_refresh_witness :
  exists db' v',
    process_response settings_session store_seen_at_10 (clock_at 40)
      request_moved response_ok = Ok (response_ok, db') /\
    Objects.get db' 4815162342 = Ok (Some v') /\
    expiry_age v' = Some 1209600 /\
    expiry_time v' = Some 1209600000000 /\
    user_agent v' = Some "Mozilla/5.0" /\
    ip_address v' = "203.0.113.7".
Proof.
  apply (repeat_sighting_refresh settings_session store_seen_at_10
           (clock_at 40) request_moved response_ok session_n 4815162342
           row_seen_at_10);
    reflexivity.
Defined.



(** X8: what the middleware never rewrites: whatever the response, the row
    at each position keeps its key, address, start time, end time and its
    [session_key] and [cookie_key] columns. *)
Theorem rows_keep_first_sight_fields cfg db c request response i v :
  numbered cfg db ->
  nth_error (visitors db) i = Some v ->
  exists v',
    nth_error (visitors (store_after cfg db c request response)) i = Some v' /\
    pk v' = pk v /\
    ip_address v' = ip_address v /\
    start_time v' = start_time v /\
    end_time v' = end_time v /\
    session_key v' = session_key v /\
    cookie_key v' = cookie_key v.
Proof.
  intros Hf Hi.
  destruct (store_after_row cfg db c request response i v Hf Hi)
    as [E | (s & k & _ & _ & _ & _ & _ & E)].
  - exists v. repeat split; auto.
  - eexists. split; [exact E|].
    rewrite updated_pk, updated_ip_address, updated_start_time,
      updated_end_time, updated_session_key, updated_cookie_key.
    repeat split.
Qed.

Lemma rows_keep_first_sight_fields_witness :
  exists v',
    nth_error (visitors (store_after settings_session store_seen_at_10
                           (clock_at 40) request_moved response_ok)) O =
    Some v' /\
    pk v' = 4815162342 /\
    ip_address v' = "203.0.113.7" /\
    start_time v' = 10000000 /\
    end_time v' = None /\
    session_key v' = "" /\
    cookie_key v' = "".
Proof.
  apply (rows_keep_first_sight_fields settings_session store_seen_at_10
           (clock_at 40) request_moved response_ok O row_seen_at_10).
  - intros Hmode. discriminate Hmode.
  - reflexivity.
Defined.

(** ** Page views *)

(** What a response does to the Pageview table: nothing, or one insert after
    the session-mode save. *)
Lemma store_after_pageviews cfg db c request response :
  pageviews (store_after cfg db c request response) = pageviews db \/
  exists s k found,
    TRACK_PAGEVIEWS cfg = true /\
    TRACK_ANONYMOUS_USERS_WITH_COOKIES cfg = false /\
    _should_track cfg (current_user request) request response = true /\
    Request.session request = Some s /\
    ledger_key s = Some k /\
    Objects.get db k = Ok found /\
    store_after cfg db c request response =
    Objects.save_pageview
      (Objects.save db (sighted c s k request found))
      (pageview_of cfg (sighted c s k request found) request (c O)).
Proof.
  destruct (_should_track cfg (current_user request) request response)
    eqn:Htrack.
  2:{ left. unfold store_after.
      now rewrite (untracked_unchanged cfg db c request response). }
  destruct (TRACK_ANONYMOUS_USERS_WITH_COOKIES cfg) eqn:Hmode.
  - left. unfold store_after.
    destruct (cookie_mode_cases cfg db c request response Hmode)
      as [E | (s & token & E)]; rewrite E;
      [reflexivity | apply created_pageviews].
  - destruct (tracked_has_session _ _ _ _ Htrack) as [s Hs].
    rewrite (session_store_after cfg db c request response s Hmode Htrack Hs).
    destruct (ledger_key s) as [k|] eqn:Hk; [|now left].
    destruct (Objects.get db k) as [found|e] eqn:Hget; [|now left].
    unfold session_store.
    destruct (TRACK_PAGEVIEWS cfg) eqn:Hpv.
    + right. exists s, k, found. repeat split; auto.
    + left. apply save_pageviews.
Qed.

(** The saved instance is a row of the store after the save. *)
Lemma saved_key_in db k found u :
  Objects.get db k = Ok found -> pk u = k ->
  In k (map pk (visitors (Objects.save db u))).
Proof.
  intros Hget Hpk.
  pose proof (get_after_save db k found u Hget Hpk) as G.
  apply get_found in G. apply in_map_iff. exists u. split; [exact Hpk|].
  assert (Hin : In u (filter (fun w => Key_eqb (pk w) k)
                        (visitors (Objects.save db u))))
    by (rewrite G; now left).
  now apply filter_In in Hin.
Qed.



(** X10: with page views off no response changes the Pageview table, in
    either mode. *)
Theorem no_pageview_when_off cfg db c request response :
  TRACK_PAGEVIEWS cfg = false ->
  pageviews (store_after cfg db c request response) = pageviews db.
Proof.
  intros Hpv.
  destruct (store_after_pageviews cfg db c request response)
    as [E | (s & k & found & Hon & _)]; [exact E | congruence].
Qed.

Lemma no_pageview_when_off_witness :
  pageviews (store_after settings_no_pageviews empty_store (clock_at 10)
               request_search response_ok) = [].
Proof.
  apply (no_pageview_when_off settings_no_pageviews empty_store (clock_at 10)
           request_search response_ok).
  reflexivity.
Defined.

(** The keys of the table are kept by every step. *)
Lemma table_step_keys db db' k :
  table_step db db' ->
  In k (map pk (visitors db)) -> In k (map pk (visitors db')).
Proof.
  intros [Hv _ | u Hv _ _ _ | u Hv _ _ | u Hv _] Hin; rewrite Hv.
  - exact Hin.
  - rewrite map_app. apply in_or_app. now left.
  - rewrite map_app. apply in_or_app. now left.
  - now rewrite map_pk_update.
Qed.

(** X11: in every reachable store each Pageview row refers to a Visitor row
    of the store. *)
Theorem pageviews_refer_to_visitors cfg db p :
  reachable cfg db ->
  In p (pageviews db) -> In (visitor p) (map pk (visitors db)).
Proof.
  intros Hr. revert p.
  induction Hr as [|db c request response Hr IH]; intros p Hp; [destruct Hp|].
  destruct (reachable_keys cfg db Hr) as [Hf Hnd].
  pose proof (store_after_step cfg db c request response Hf) as Hstep.
  destruct (store_after_pageviews cfg db c request response)
    as [E | (s & k & found & _ & _ & _ & _ & _ & Hget & E)].
  - rewrite E in Hp. apply (table_step_keys _ _ _ Hstep). now apply IH.
  - pose proof (sighted_pk_get db c s k request found Hget) as Hpk.
    rewrite E in Hp. cbn [pageviews Objects.save_pageview] in Hp.
    rewrite save_pageviews in Hp. apply in_app_or in Hp.
    destruct Hp as [Hp | [<- | []]].
    + apply (table_step_keys _ _ _ Hstep). now apply IH.
    + rewrite E. cbn [visitors Objects.save_pageview pageview_of visitor].
      rewrite Hpk. exact (saved_key_in db k found _ Hget Hpk).
Qed.

Lemma pageviews_refer_to_visitors_witness :
  In 4815162342 (map pk (visitors store_seen_twice)).
Proof.
  apply (pageviews_refer_to_visitors settings_session store_seen_twice
           pageview_search).
  - unfold store_seen_twice, store_seen_at_10.
    do 2 apply reachable_step. apply reachable_empty.
  - right. left. reflexivity.
Defined.

(** X12: the referer and the query string are policy-gated for good: in a
    store reached with [TRACK_REFERER] off no Pageview row has a referer,
    and with [TRACK_QUERY_STRING] off none has a query string. *)
Theorem pageviews_respect_flags cfg db p :
  reachable cfg db ->
  In p (pageviews db) ->
  (TRACK_REFERER cfg = false -> referer p = None) /\
  (TRACK_QUERY_STRING cfg = false -> query_string p = None).
Proof.
  intros Hr. revert p.
  induction Hr as [|db c request response Hr IH]; intros p Hp; [destruct Hp|].
  destruct (store_after_pageviews cfg db c request response)
    as [E | (s & k & found & _ & _ & _ & _ & _ & _ & E)]; rewrite E in Hp.
  - now apply IH.
  - cbn [pageviews Objects.save_pageview] in Hp.
    rewrite save_pageviews in Hp. apply in_app_or in Hp.
    destruct Hp as [Hp | [<- | []]]; [now apply IH|].
    cbn [pageview_of referer query_string].
    split; intros ->; reflexivity.
Qed.

Lemma pageviews_respect_flags_witness :
  referer pageview_bare = None /\ query_string pageview_bare = None.
Proof.
  destruct (pageviews_respect_flags settings_no_referer store_no_referer
              pageview_bare) as [H1 H2].
  - unfold store_no_referer. apply reachable_step. apply reachable_empty.
  - left. reflexivity.
  - split; [apply H1 | apply H2]; reflexivity.
Defined.

(** X13: the tables only grow: a response keeps the keys of the Visitor
    table in place and appends at most one, and it keeps the Pageview rows
    and appends at most one. *)
Theorem tables_only_grow cfg db c request response :
  numbered cfg db ->
  exists keys rows,
    map pk (visitors (store_after cfg db c request response)) =
      (map pk (visitors db) ++ keys)%list /\
    pageviews (store_after cfg db c request response) =
      (pageviews db ++ rows)%list /\
    (List.length keys <= 1)%nat /\ (List.length rows <= 1)%nat.
Proof.
  intros Hf.
  assert (Hk : exists keys,
             map pk (visitors (store_after cfg db c request response)) =
               (map pk (visitors db) ++ keys)%list /\
             (List.length keys <= 1)%nat).
  { destruct (store_after_step cfg db c request response Hf)
      as [Hv _ | u Hv _ _ _ | u Hv _ _ | u Hv _]; rewrite Hv.
    - exists []. rewrite app_nil_r. split; [reflexivity | cbn; lia].
    - exists [pk u]. rewrite map_app. split; [reflexivity | cbn; lia].
    - exists [pk u]. rewrite map_app. split; [reflexivity | cbn; lia].
    - exists []. rewrite app_nil_r, map_pk_update.
      split; [reflexivity | cbn; lia]. }
  destruct Hk as (keys & Hkeys & Hlen). exists keys.
  destruct (store_after_pageviews cfg db c request response)
    as [E | (s & k & found & _ & _ & _ & _ & _ & _ & E)].
  - exists []. rewrite E, app_nil_r. repeat split; [exact Hkeys | exact Hlen|].
    cbn; lia.
  - eexists [_]. split; [exact Hkeys|]. split; [|split; [exact Hlen|cbn; lia]].
    rewrite E. cbn [pageviews Objects.save_pageview].
    now rewrite save_pageviews.
Qed.

Lemma tables_only_grow_witness :
  exists keys rows,
    map pk (visitors (store_after settings_session store_seen_at_10
                        (clock_at 40) request_new_session response_ok)) =
      (map pk (visitors store_seen_at_10) ++ keys)%list /\
    pageviews (store_after settings_session store_seen_at_10
                 (clock_at 40) request_new_session response_ok) =
      (pageviews store_seen_at_10 ++ rows)%list /\
    (List.length keys <= 1)%nat /\ (List.length rows <= 1)%nat.
Proof.
  apply (tables_only_grow settings_session store_seen_at_10 (clock_at 40)
           request_new_session response_ok).
  intros Hmode. discriminate Hmode.
Defined.

(** ** The cookie issuer *)

Lemma dict_get_set_same {A} (d : dict A) k a :
  dict_get (dict_set d k a) k = Some a.
Proof.
  induction d as [|[k' a'] d IH]; cbn.
  - now rewrite String.eqb_refl.
  - destruct (String.eqb k' k) eqn:E; cbn.
    + now rewrite String.eqb_refl.
    + now rewrite E.
Qed.

Lemma dict_get_set_other {A} (d : dict A) k k' a :
  k' <> k -> dict_get (dict_set d k a) k' = dict_get d k'.
Proof.
  intros Hne. induction d as [|[k0 a0] d IH]; cbn.
  - destruct (String.eqb k k') eqn:E; [|reflexivity].
    apply String.eqb_eq in E. congruence.
  - destruct (String.eqb k0 k) eqn:E; cbn.
    + apply String.eqb_eq in E. subst k0.
      destruct (String.eqb k k') eqn:E'; [|reflexivity].
      apply String.eqb_eq in E'. congruence.
    + destruct (String.eqb k0 k'); [reflexivity | exact IH].
Qed.

(** The outcomes of the issuer: the generation error, the missing user, the
    response as it was, or the response with the cookie set for a value
    that is not the sentinel. *)
Lemma issuer_cases cfg db g c request response :
  (exists e, Issuer.process_response cfg db g c request response = Raise e) \/
  Issuer.process_response cfg db g c request response = Ok response \/
  exists value u,
    Issuer.process_response cfg db g c request response =
      Ok (Response.set_cookie response cookie_name (issued cfg c value)) /\
    String.eqb value user_registered = false /\
    Request.user request = Some u /\ is_authenticated u = false /\
    (dict_get (Request.COOKIES request) cookie_name = Some value /\
     str_truthy value = true \/
     truthy (dict_get (Request.COOKIES request) cookie_name) = false /\
     Issuer.ucode db g = Ok value).
Proof.
  unfold Issuer.process_response.
  destruct (truthy (dict_get (Request.COOKIES request) cookie_name)) eqn:Hc;
    cbn [negb].
  - destruct (dict_get (Request.COOKIES request) cookie_name) as [value|]
      eqn:Hv; [|discriminate]. cbn [bind].
    unfold Issuer.the_user.
    destruct (Request.user request) as [u|]; cbn [bind]; [|left; eauto].
    destruct (is_authenticated u) eqn:Ha; cbn [negb andb]; [now right; left|].
    destruct (String.eqb value user_registered) eqn:Es; cbn [negb];
      [now right; left|].
    right. right. exists value, u. repeat split; auto.
  - destruct (Issuer.ucode db g) as [value|e] eqn:Hg; cbn [bind];
      [|left; eauto].
    unfold Issuer.the_user.
    destruct (Request.user request) as [u|]; cbn [bind]; [|left; eauto].
    destruct (is_authenticated u) eqn:Ha; cbn [negb andb]; [now right; left|].
    destruct (String.eqb value user_registered) eqn:Es; cbn [negb];
      [now right; left|].
    right. right. exists value, u. repeat split; auto.
Qed.

(** X14: for a user who is not authenticated and whose browser holds a
    token, the issuer sets the cookie again with the same token, to last 360
    days from the clock's reading, with the domain and the secure flag of
    the session cookie settings; no token is generated. *)
Theorem issuer_refreshes_token cfg db g c request response u value :
  Request.user request = Some u ->
  is_authenticated u = false ->
  dict_get (Request.COOKIES request) cookie_name = Some value ->
  str_truthy value = true ->
  String.eqb value user_registered = false ->
  exists response' m,
    Issuer.process_response cfg db g c request response = Ok response' /\
    dict_get (Response.cookies response') cookie_name = Some m /\
    Response.value m = value /\
    Response.max_age m = 360 * 24 * 60 * 60 /\
    Response.expires m = c O + 360 * 24 * 60 * 60 * 1000000 /\
    Response.domain m = SESSION_COOKIE_DOMAIN cfg /\
    Response.secure m = (if SESSION_COOKIE_SECURE cfg then Some true else None).
Proof.
  intros Hu Ha Hc Hv Hs. unfold Issuer.process_response.
  rewrite Hc. unfold str_truthy in Hv. rewrite Hv. cbn [negb bind].
  unfold Issuer.the_user. rewrite Hu. cbn [bind]. rewrite Ha, Hs.
  cbn [negb andb]. eexists. eexists. split; [reflexivity|].
  unfold Response.set_cookie. cbn [Response.cookies].
  rewrite dict_get_set_same. split; [reflexivity|].
  cbn [Response.value Response.max_age Response.expires Response.domain
       Response.secure timezone_now fst].
  unfold dt_add_seconds. repeat split.
Qed.

Lemma issuer_refreshes_token_witness :
  exists response' m,
    Issuer.process_response settings_cookie empty_store (fun _ => "unused")
      (clock_at 5) request_token response_ok = Ok response' /\
    dict_get (Response.cookies response') cookie_name = Some m /\
    Response.value m = token_a /\
    Response.max_age m = 360 * 24 * 60 * 60 /\
    Response.expires m = 5000000 + 360 * 24 * 60 * 60 * 1000000 /\
    Response.domain m = None /\
    Response.secure m = None.
Proof.
  apply (issuer_refreshes_token settings_cookie empty_store
           (fun _ => "unused") (clock_at 5) request_token response_ok
           AnonymousUser token_a); reflexivity.
Defined.

(** X15: the sentinel is final: when the browser's cookie is the sentinel,
    the issuer returns the response as it was, whoever the user is. *)
Theorem issuer_keeps_sentinel cfg db g c request response u :
  Request.user request = Some u ->
  dict_get (Request.COOKIES request) cookie_name = Some user_registered ->
  Issuer.process_response cfg db g c request response = Ok response.
Proof.
  intros Hu Hc. unfold Issuer.process_response. rewrite Hc.
  cbn [truthy user_registered negb bind].
  unfold Issuer.the_user. rewrite Hu. cbn [bind].
  destruct (is_authenticated u); reflexivity.
Qed.

Lemma issuer_keeps_sentinel_witness :
  Issuer.process_response settings_cookie empty_store (fun _ => token_a)
    (clock_at 5) request_registered response_ok = Ok response_ok.
Proof.
  apply (issuer_keeps_sentinel settings_cookie empty_store (fun _ => token_a)
           (clock_at 5) request_registered response_ok AnonymousUser);
    reflexivity.
Defined.

(** X16: the issuer touches nothing but its cookie: the response it returns
    has the status code and every other cookie of the response it was
    given. *)
Theorem issuer_touches_one_cookie cfg db g c request response response' :
  Issuer.process_response cfg db g c request response = Ok response' ->
  Response.status_code response' = Response.status_code response /\
  forall k, k <> cookie_name ->
    dict_get (Response.cookies response') k =
    dict_get (Response.cookies response) k.
Proof.
  intros H.
  destruct (issuer_cases cfg db g c request response)
    as [[e E] | [E | (value & u & E & _)]]; rewrite E in H.
  - discriminate.
  - inversion H; subst. auto.
  - inversion H; subst. split; [reflexivity|].
    intros k Hk. unfold Response.set_cookie. cbn [Response.cookies].
    now apply dict_get_set_other.
Qed.

Lemma issuer_touches_one_cookie_witness :
  Response.status_code
    (Response.set_cookie response_with_session_cookie cookie_name
       (issued settings_cookie (clock_at 5) token_a)) = 200 /\
  forall k, k <> cookie_name ->
    dict_get
      (Response.cookies
         (Response.set_cookie response_with_session_cookie cookie_name
            (issued settings_cookie (clock_at 5) token_a))) k =
    dict_get (Response.cookies response_with_session_cookie) k.
Proof.
  apply (issuer_touches_one_cookie settings_cookie empty_store
           (fun _ => token_a) (clock_at 5) request_token
           response_with_session_cookie
           (Response.set_cookie response_with_session_cookie cookie_name
              (issued settings_cookie (clock_at 5) token_a))).
  reflexivity.
Defined.

(** X17: the issuer never writes the sentinel: when it sets its cookie, the
    user is not authenticated and the value is not the sentinel; it is the
    token that the request carried, or one that the generator returned when
    the request carried none. *)
Theorem issuer_never_sets_sentinel cfg db g c request response response' :
  Issuer.process_response cfg db g c request response = Ok response' ->
  response' <> response ->
  exists u m,
    Request.user request = Some u /\ is_authenticated u = false /\
    dict_get (Response.cookies response') cookie_name = Some m /\
    Response.value m <> user_registered /\
    (dict_get (Request.COOKIES request) cookie_name = Some (Response.value m)
     \/ truthy (dict_get (Request.COOKIES request) cookie_name) = false /\
        Issuer.ucode db g = Ok (Response.value m)).
Proof.
  intros H Hne.
  destruct (issuer_cases cfg db g c request response)
    as [[e E] | [E | (value & u & E & Hs & Hu & Ha & Hv)]]; rewrite E in H.
  - discriminate.
  - inversion H; subst. contradiction.
  - inversion H; subst. exists u, (issued cfg c value).
    split; [exact Hu|]. split; [exact Ha|]. split.
    { unfold Response.set_cookie. cbn [Response.cookies].
      apply dict_get_set_same. }
    cbn [issued Response.value]. split.
    { intros ->. unfold user_registered in Hs.
      now rewrite String.eqb_refl in Hs. }
    destruct Hv as [[Hc _] | Hv]; auto.
Qed.

Lemma issuer_never_sets_sentinel_witness :
  exists u m,
    Request.user request_plain = Some u /\ is_authenticated u = false /\
    dict_get
      (Response.cookies
         (Response.set_cookie response_ok cookie_name
            (issued settings_cookie (clock_at 5) token_a)))
      cookie_name = Some m /\
    Response.value m <> user_registered /\
    (dict_get (Request.COOKIES request_plain) cookie_name =
       Some (Response.value m)
     \/ truthy (dict_get (Request.COOKIES request_plain) cookie_name) = false
        /\ Issuer.ucode empty_store (fun _ => token_a) =
           Ok (Response.value m)).
Proof.
  apply (issuer_never_sets_sentinel settings_cookie empty_store
           (fun _ => token_a) (clock_at 5) request_plain response_ok).
  - reflexivity.
  - discriminate.
Defined.

(** ** What the generator returns *)

Lemma taken_false_iff db code :
  taken db code = false <->
  forall v, In v (visitors db) -> session_key v <> code.
Proof.
  unfold taken, Objects.filter_session_key_exists. split.
  - intros H v Hv E.
    assert (Ht : existsb (fun v => String.eqb (session_key v) code)
                   (visitors db) = true).
    { apply existsb_exists. exists v. split; [exact Hv|].
      now apply String.eqb_eq. }
    congruence.
  - intros H.
    destruct (existsb (fun v => String.eqb (session_key v) code)
                (visitors db)) eqn:E; [|reflexivity].
    apply existsb_exists in E. destruct E as (v & Hv & E).
    apply String.eqb_eq in E. now apply H in Hv.
Qed.

(** X18: a token that the generator returns is one of its first 16 draws,
    the first that is the [session_key] of no row: every draw before it is
    the [session_key] of some row. *)
Theorem ucode_returns_first_free_draw db (g : Issuer.uuid_source) code :
  Issuer.ucode db g = Ok code ->
  (forall v, In v (visitors db) -> session_key v <> code) /\
  exists i, (i < 16)%nat /\ code = g i /\
    forall j, (j < i)%nat ->
      exists v, In v (visitors db) /\ session_key v = g j.
Proof.
  intros H.
  destruct (ucode_cases db g) as [[E _] | (i & Hi & E & Hf & Hp)];
    rewrite E in H; [discriminate|]. inversion H; subst code.
  split; [now apply taken_false_iff|].
  exists i. split; [exact Hi|]. split; [reflexivity|].
  intros j Hj. specialize (Hp j Hj).
  unfold taken, Objects.filter_session_key_exists in Hp.
  apply existsb_exists in Hp. destruct Hp as (v & Hv & Ev).
  apply String.eqb_eq in Ev. eauto.
Qed.

Lemma ucode_returns_first_free_draw_witness :
  (forall v, In v (visitors store_ab) -> session_key v <> "c") /\
  exists i, (i < 16)%nat /\ "c" = draws_abc i /\
    forall j, (j < i)%nat ->
      exists v, In v (visitors store_ab) /\ session_key v = draws_abc j.
Proof.
  apply (ucode_returns_first_free_draw store_ab draws_abc "c").
  reflexivity.
Defined.

(** ** The rows of a reachable store *)

(** A row of the store after a response is a row of the store before, the
    instance that the session-mode sighting saved, or the row that the
    cookie-mode sighting inserted. *)
Lemma store_after_rows cfg db c request response w :
  In w (visitors (store_after cfg db c request response)) ->
  In w (visitors db) \/
  (exists s k found,
     TRACK_ANONYMOUS_USERS_WITH_COOKIES cfg = false /\
     Objects.get db k = Ok found /\
     w = sighted c s k request found) \/
  (exists s token,
     TRACK_ANONYMOUS_USERS_WITH_COOKIES cfg = true /\
     str_truthy token = true /\
     w = cookie_row c s request token (KAuto (next_id db))).
Proof.
  destruct (_should_track cfg (current_user request) request response)
    eqn:Htrack.
  2:{ unfold store_after.
      rewrite (untracked_unchanged cfg db c request response Htrack). auto. }
  destruct (tracked_has_session _ _ _ _ Htrack) as [s Hs].
  destruct (TRACK_ANONYMOUS_USERS_WITH_COOKIES cfg) eqn:Hmode.
  - unfold store_after.
    destruct (dict_get (Request.COOKIES request) cookie_name) as [t|] eqn:Hc.
    + destruct (str_truthy t) eqn:Ht.
      * rewrite (cookie_mode_token cfg db c request response s t
                   Hmode Htrack Hs Hc Ht).
        intros Hw. apply created_rows in Hw. destruct Hw as [Hw | ->]; auto.
        right. right. exists (keyed s), t. auto.
      * rewrite (cookie_mode_no_token cfg db c request response Hmode Htrack);
          [auto|]. rewrite Hc. exact Ht.
    + rewrite (cookie_mode_no_token cfg db c request response Hmode Htrack);
        [auto|]. now rewrite Hc.
  - rewrite (session_store_after cfg db c request response s Hmode Htrack Hs).
    destruct (ledger_key s) as [k|]; [|auto].
    destruct (Objects.get db k) as [found|e] eqn:Hget; [|auto].
    rewrite session_store_visitors. intros Hw. apply save_rows in Hw.
    destruct Hw as [Hw | ->]; [auto|].
    right. left. exists s, k, found. auto.
Qed.

Lemma sighted_kept_fields c s k request found :
  end_time (sighted c s k request found) =
    match found with Some v => end_time v | None => None end /\
  session_key (sighted c s k request found) =
    match found with Some v => session_key v | None => "" end /\
  cookie_key (sighted c s k request found) =
    match found with Some v => cookie_key v | None => "" end.
Proof.
  unfold sighted.
  rewrite updated_end_time, updated_session_key, updated_cookie_key.
  destruct found; auto.
Qed.

Lemma get_found_in db k v :
  Objects.get db k = Ok (Some v) -> In v (visitors db).
Proof.
  intros H. apply get_found in H.
  assert (Hin : In v (filter (fun w => Key_eqb (pk w) k) (visitors db)))
    by (rewrite H; now left).
  now apply filter_In in Hin.
Qed.

Lemma session_mode_columns cfg db v :
  TRACK_ANONYMOUS_USERS_WITH_COOKIES cfg = false ->
  reachable cfg db ->
  In v (visitors db) ->
  session_key v = "" /\ cookie_key v = "".
Proof.
  intros Hmode Hr. revert v.
  induction Hr as [|db c request response Hr IH]; intros v Hv; [destruct Hv|].
  apply store_after_rows in Hv.
  destruct Hv as [Hv | [(s & k & found & _ & Hget & ->) | (s & t & Hm & _)]].
  - now apply IH.
  - destruct (sighted_kept_fields c s k request found) as (_ & Hs & Hc).
    rewrite Hs, Hc. destruct found as [v0|]; [|auto].
    exact (IH v0 (get_found_in _ _ _ Hget)).
  - congruence.
Qed.

(** X19: in a store reached in session mode the [session_key] and
    [cookie_key] columns of every row are empty: the session is kept in the
    primary key alone, as the number that its key reads as. *)
Theorem session_mode_rows cfg db v :
  TRACK_ANONYMOUS_USERS_WITH_COOKIES cfg = false ->
  reachable cfg db ->
  In v (visitors db) ->
  session_key v = "" /\ cookie_key v = "".
Proof. apply session_mode_columns. Qed.

Lemma session_mode_rows_witness :
  session_key row_seen_at_10 = "" /\ cookie_key row_seen_at_10 = "".
Proof.
  apply (session_mode_rows settings_session store_seen_at_10 row_seen_at_10).
  - reflexivity.
  - unfold store_seen_at_10. apply reachable_step. apply reachable_empty.
  - left. reflexivity.
Defined.

(** X20: so in session mode the generator's test finds nothing: on a store
    reached in session mode it returns its first draw, when that is not the
    empty string. *)
Theorem session_mode_generator_first_draw cfg db (g : Issuer.uuid_source) :
  TRACK_ANONYMOUS_USERS_WITH_COOKIES cfg = false ->
  reachable cfg db ->
  g O <> "" ->
  Issuer.ucode db g = Ok (g O).
Proof.
  intros Hmode Hr Hg.
  assert (Hf : taken db (g O) = false).
  { apply taken_false_iff. intros v Hv E.
    destruct (session_mode_columns cfg db v Hmode Hr Hv) as (Hs & _).
    congruence. }
  unfold Issuer.ucode.
  apply (ucode_loop_first_free db O g O None);
    [unfold Issuer.MAX_TRIES; lia | | exact Hf].
  intros j Hj. lia.
Qed.

Lemma session_mode_generator_first_draw_witness :
  Issuer.ucode store_seen_at_10 (fun _ => token_a) = Ok token_a.
Proof.
  apply (session_mode_generator_first_draw settings_session store_seen_at_10
           (fun _ => token_a)).
  - reflexivity.
  - unfold store_seen_at_10. apply reachable_step. apply reachable_empty.
  - discriminate.
Defined.

(** X21: in a store reached in cookie mode the Pageview table is empty and
    every Visitor row was numbered by the database, has a non-empty
    [cookie_key], no user and [time_on_site] 1. *)
Theorem cookie_mode_store cfg db :
  TRACK_ANONYMOUS_USERS_WITH_COOKIES cfg = true ->
  reachable cfg db ->
  pageviews db = [] /\
  forall v, In v (visitors db) ->
    (exists n, pk v = KAuto n) /\ str_truthy (cookie_key v) = true /\
    user_id v = None /\ time_on_site v = Some 1.
Proof.
  intros Hmode Hr.
  induction Hr as [|db c request response Hr [IHp IHv]].
  - split; [reflexivity | intros v []].
  - split.
    + destruct (store_after_pageviews cfg db c request response)
        as [E | (s & k & found & _ & Hm & _)]; [now rewrite E | congruence].
    + intros v Hv. apply store_after_rows in Hv.
      destruct Hv as [Hv | [(s & k & found & Hm & _) | (s & t & _ & Ht & ->)]].
      * now apply IHv.
      * congruence.
      * cbn [cookie_row pk cookie_key user_id time_on_site]. eauto.
Qed.

Lemma cookie_mode_store_witness :
  pageviews store_token_seen_twice = [] /\
  forall v, In v (visitors store_token_seen_twice) ->
    (exists n, pk v = KAuto n) /\ str_truthy (cookie_key v) = true /\
    user_id v = None /\ time_on_site v = Some 1.
Proof.
  apply (cookie_mode_store settings_cookie store_token_seen_twice).
  - reflexivity.
  - unfold store_token_seen_twice. do 2 apply reachable_step.
    apply reachable_empty.
Defined.

(** X22: a tracked cookie-mode sighting that carries a token appends one row
    to a reachable store and advances the sequence by one; the save after
    the insert changes nothing.  The row has the next number as its key, the
    session's key and the token in its columns, the request's address and
    User-Agent as they came, and the clock's reading as [start_time]. *)
Theorem cookie_sighting_row cfg db c request response s token :
  reachable cfg db ->
  TRACK_ANONYMOUS_USERS_WITH_COOKIES cfg = true ->
  _should_track cfg (current_user request) request response = true ->
  Request.session request = Some s ->
  dict_get (Request.COOKIES request) cookie_name = Some token ->
  str_truthy token = true ->
  exists row,
    process_response cfg db c request response =
    Ok (response,
        mkStore (visitors db ++ [row]) (pageviews db)
          (Pos.succ (next_id db))) /\
    pk row = KAuto (next_id db) /\
    session_key row = (if str_truthy (Session.session_key s)
                       then Session.session_key s
                       else Session.fresh_key s) /\
    cookie_key row = token /\
    ip_address row = Request.ip request /\
    user_agent row = dict_get (Request.META request) "HTTP_USER_AGENT" /\
    start_time row = c 1%nat /\
    expiry_age row = Some (Session.get_expiry_age s) /\
    expiry_time row = Some (Session.get_expiry_date s).
Proof.
  intros Hr Hmode Htrack Hs Hc Ht.
  destruct (reachable_keys cfg db Hr) as [Hf _].
  rewrite (cookie_mode_token cfg db c request response s token
             Hmode Htrack Hs Hc Ht).
  exists (cookie_row c (keyed s) request token (KAuto (next_id db))).
  split.
  - f_equal. f_equal.
    pose proof (created_fresh db (cookie_row c (keyed s) request token)
                  (Hf Hmode) (cookie_row_pk c (keyed s) request token)) as Ev.
    pose proof (created_pageviews db (cookie_row c (keyed s) request token))
      as Ep.
    pose proof (created_next_id db (cookie_row c (keyed s) request token))
      as En.
    destruct (created db (cookie_row c (keyed s) request token))
      as [vs ps n]. cbn [visitors pageviews next_id] in *. now subst.
  - destruct (keyed_expiry s) as [Ka Kt].
    cbn [cookie_row pk session_key cookie_key ip_address user_agent
         start_time expiry_age expiry_time].
    rewrite Ka, Kt. repeat split.
    + unfold keyed. now destruct (str_truthy (Session.session_key s)).
    + unfold smart_text.
      destruct (dict_get (Request.META request) "HTTP_USER_AGENT") as [ua|];
        [now destruct (str_truthy ua) | reflexivity].
Qed.

Lemma cookie_sighting_row_witness :
  exists row,
    process_response settings_cookie empty_store (clock_at 5) request_token
      response_ok =
    Ok (response_ok, mkStore ([] ++ [row]) [] 2) /\
    pk row = KAuto 1 /\
    session_key row = "k9x2m4q7" /\
    cookie_key row = token_a /\
    ip_address row = "203.0.113.7" /\
    user_agent row = Some "Mozilla/5.0" /\
    start_time row = 5000000 /\
    expiry_age row = Some 1209600 /\
    expiry_time row = Some 1209600000000.
Proof.
  apply (cookie_sighting_row settings_cookie empty_store (clock_at 5)
           request_token response_ok session_a token_a); try reflexivity.
  apply reachable_empty.
Defined.

(** ** The methods of the model on reachable stores *)

(** X23: the middleware never ends a session: in a reachable store no row
    has an end time, so [session_ended] is false for every row. *)
Theorem no_session_ended cfg db v :
  reachable cfg db ->
  In v (visitors db) ->
  end_time v = None /\ session_ended v = false.
Proof.
  intros Hr Hv.
  assert (He : end_time v = None).
  { revert v Hv.
    induction Hr as [|db c request response Hr IH]; intros v Hv;
      [destruct Hv|].
    apply store_after_rows in Hv.
    destruct Hv
      as [Hv | [(s & k & found & _ & Hget & ->) | (s & t & _ & _ & ->)]].
    - now apply IH.
    - destruct (sighted_kept_fields c s k request found) as (He & _).
      rewrite He. destruct found as [v0|]; [|reflexivity].
      apply IH. exact (get_found_in _ _ _ Hget).
    - reflexivity. }
  split; [exact He|]. unfold session_ended. now rewrite He.
Qed.

Lemma no_session_ended_witness :
  end_time row_seen_at_10 = None /\ session_ended row_seen_at_10 = false.
Proof.
  apply (no_session_ended settings_session store_seen_at_10 row_seen_at_10).
  - unfold store_seen_at_10. apply reachable_step. apply reachable_empty.
  - left. reflexivity.
Defined.

(** X24: every row of a reachable store has its expiry age, its expiry time
    and its time on site set. *)
Theorem rows_have_expiry_and_time cfg db v :
  reachable cfg db ->
  In v (visitors db) ->
  exists age date seconds,
    expiry_age v = Some age /\ expiry_time v = Some date /\
    time_on_site v = Some seconds.
Proof.
  intros Hr. revert v.
  induction Hr as [|db c request response Hr IH]; intros v Hv; [destruct Hv|].
  apply store_after_rows in Hv.
  destruct Hv as [Hv | [(s & k & found & _ & _ & ->) | (s & t & _ & _ & ->)]].
  - now apply IH.
  - unfold sighted.
    match goal with
    | |- context [updated ?a ?b ?d ?e ?f] =>
        destruct (updated_expiry a b d e f) as [Ha Ht];
        rewrite Ha, Ht, updated_time_on_site
    end.
    do 3 eexists. repeat split.
  - cbn [cookie_row expiry_age expiry_time time_on_site].
    do 3 eexists. repeat split.
Qed.

Lemma rows_have_expiry_and_time_witness :
  exists age date seconds,
    expiry_age row_seen_at_10 = Some age /\
    expiry_time row_seen_at_10 = Some date /\
    time_on_site row_seen_at_10 = Some seconds.
Proof.
  apply (rows_have_expiry_and_time settings_session store_seen_at_10
           row_seen_at_10).
  - unfold store_seen_at_10. apply reachable_step. apply reachable_empty.
  - left. reflexivity.
Defined.


